(** * Quote screen of the roller-blind quoting tool: pricing rules

    A shallow embedding of the quote screen ([QuoteScreen]) in the
    revision that has the fascia and installation add-ons, of the same
    screen as [frontend/app/(tabs)/index.tsx] has it, without add-ons
    (module [NoAddons]), and of the catalog fetch of the products screen,
    followed by the properties of the pricing computation.

    JavaScript numbers are IEEE 754 binary64 values; they are modelled by
    [spec_float] of the standard library at precision 53 and maximal
    exponent 1024, so every product and sum below rounds exactly as the
    program's does. *)

From Stdlib Require Import ZArith List String Ascii Bool Lia QArith Qabs.
From Stdlib Require Import DecimalString.
From Stdlib Require Import Floats.SpecFloat.
From stdpp Require Import base list.

Import ListNotations.
Local Open Scope Z_scope.
Local Open Scope string_scope.

(** ** The fragment of ECMAScript the screen relies on *)

Module JS.

(** *** Numbers *)

Definition number := spec_float.

Definition prec : Z := 53.
Definition emax : Z := 1024.

Definition NaN : number := S754_nan.
Definition Infinity : number := S754_infinity false.
Definition zero : number := S754_zero false.

Definition mul (x y : number) : number := SFmul prec emax x y.
Definition add (x y : number) : number := SFadd prec emax x y.

(** The relational operators; a comparison with [NaN] is false. *)
Definition ltb (x y : number) : bool := SFltb x y.
Definition leb (x y : number) : bool := SFleb x y.
(** [x === y] on numbers. *)
Definition eqb (x y : number) : bool := SFeqb x y.

(** The global [isNaN] applied to a number. *)
Definition isNaN (x : number) : bool :=
  match x with S754_nan => true | _ => false end.

(** [ToBoolean] of a number: zero of either sign and [NaN] are falsy. *)
Definition truthy (x : number) : bool :=
  match x with
  | S754_zero _ | S754_nan => false
  | _ => true
  end.

(** [x || d] for numbers. *)
Definition or_else (x d : number) : number := if truthy x then x else d.

(** The number denoted by the integer [n]: [𝔽(n)], rounded to nearest,
    ties to even. *)
Definition of_Z (n : Z) : number := binary_normalize prec emax n 0 false.

(** *** Decimal literals *)

(** [𝔽(m × 10^e)] for a positive integer [m], with the sign [s]. For a
    negative [e] the quotient and its position between two consecutive
    candidates are computed as for a division. *)
Definition of_decimal (s : bool) (m : positive) (e : Z) : number :=
  match e with
  | Zneg k =>
      let '(q, e', l) :=
        SFdiv_core_binary prec emax (Zpos m) 0 (Zpos (Pos.pow 10 k)) 0 in
      binary_round_aux prec emax s q e' l
  | Zpos k => binary_round prec emax s (m * Pos.pow 10 k) 0
  | Z0 => binary_round prec emax s m 0
  end.

(** *** Strings

    A string is a sequence of code units; the model keeps the code units
    below 256, which covers what the numeric keyboards of the form
    produce. *)

(** [WhiteSpace] and [LineTerminator] code units (below 256): TAB, LF,
    VT, FF, CR, SP and NBSP. *)
Definition is_white_space (c : ascii) : bool :=
  let n := N_of_ascii c in
  ((9 <=? n) && (n <=? 13) || (n =? 32) || (n =? 160))%N.

(** [TrimString(s, start)]. *)
Fixpoint trim_start (s : string) : string :=
  match s with
  | String c s' => if is_white_space c then trim_start s' else s
  | EmptyString => s
  end.

Definition digit_of (c : ascii) : option N :=
  let n := N_of_ascii c in
  if ((48 <=? n) && (n <=? 57))%N then Some (n - 48)%N else None.

(** The longest prefix of decimal digits, and what follows it. *)
Fixpoint take_digits (s : string) : list N * string :=
  match s with
  | String c s' =>
      match digit_of c with
      | Some d => let '(ds, r) := take_digits s' in (d :: ds, r)
      | None => ([], s)
      end
  | EmptyString => ([], s)
  end.

(** The mathematical value of a sequence of decimal digits. *)
Definition digits_value (ds : list N) : N :=
  fold_left (fun acc d => (10 * acc + d)%N) ds 0%N.

(** An optional sign: [true] for ["-"]. *)
Definition take_sign (s : string) : bool * string :=
  match s with
  | String "-" s' => (true, s')
  | String "+" s' => (false, s')
  | _ => (false, s)
  end.

(** [ExponentPart], when the string starts with one: the exponent
    indicator, an optional sign and at least one digit. Without a digit
    the indicator does not belong to the literal. *)
Definition take_exponent (s : string) : Z :=
  match s with
  | String c s' =>
      if (Ascii.eqb c "e" || Ascii.eqb c "E")%bool then
        let '(neg, s'') := take_sign s' in
        match take_digits s'' with
        | ([], _) => 0
        | (ds, _) =>
            let v := Z.of_N (digits_value ds) in if neg then - v else v
        end
      else 0
  | EmptyString => 0
  end.

(** The value of the digits [ds] scaled by [10^e], with sign [s]. *)
Definition decimal_value (s : bool) (ds : list N) (e : Z) : number :=
  match digits_value ds with
  | N0 => S754_zero s
  | Npos m => of_decimal s m e
  end.

(** The longest prefix that is a [StrUnsignedDecimalLiteral], evaluated;
    [None] when no prefix is one. *)
Definition unsigned_literal (s : bool) (str : string) : option number :=
  if String.prefix "Infinity" str then Some (S754_infinity s)
  else
    let '(int, r) := take_digits str in
    match r with
    | String "." r' =>
        let '(frac, r'') := take_digits r' in
        match int, frac with
        | [], [] => None
        | _, _ =>
            Some (decimal_value s (int ++ frac)
                    (take_exponent r'' - Z.of_nat (length frac)))
        end
    | _ =>
        match int with
        | [] => None
        | _ => Some (decimal_value s int (take_exponent r))
        end
    end.

(** The global [parseFloat] applied to a string. *)
Definition parseFloat (input : string) : number :=
  let '(s, str) := take_sign (trim_start input) in
  match unsigned_literal s str with
  | Some v => v
  | None => NaN
  end.

(** [String.prototype.trim] and [s || null] for a string. *)
Definition rev_string (s : string) : string :=
  string_of_list_ascii (rev (list_ascii_of_string s)).

Definition trim (s : string) : string :=
  rev_string (trim_start (rev_string (trim_start s))).

Definition or_null (s : string) : option string :=
  match s with
  | EmptyString => None
  | _ => Some s
  end.

(** *** Printing numbers *)

Definition string_of_N (n : N) : string :=
  NilEmpty.string_of_uint (N.to_uint n).

Fixpoint zeros (n : nat) : string :=
  match n with
  | O => ""
  | S n' => String "0" (zeros n')
  end.

(** The digits of [n] with a decimal point before the last [f] of them,
    padded on the left so that a digit precedes the point. *)
Definition with_point (f : nat) (n : N) : string :=
  let m := string_of_N n in
  match f with
  | O => m
  | _ =>
      let k := String.length m in
      let m' := if (k <=? f)%nat then zeros (f + 1 - k) ++ m else m in
      let k' := String.length m' in
      substring 0 (k' - f) m' ++ "." ++ substring (k' - f) f m'
  end.

(** The integer [n] for which [n / 10^f] is closest to [m × 2^e], the
    larger one when two are as close. *)
Definition round_scaled (f : nat) (m : positive) (e : Z) : N :=
  let scaled := (Npos m * 10 ^ N.of_nat f)%N in
  match e with
  | Zneg k => ((2 * scaled + 2 ^ Npos k) / 2 ^ (Npos k + 1))%N
  | _ => (scaled * 2 ^ Z.to_N e)%N
  end.

(** [m × 2^e >= bound]. *)
Definition at_least (m : positive) (e : Z) (bound : N) : bool :=
  match e with
  | Zneg k => (bound * 2 ^ Npos k <=? Npos m)%N
  | _ => (bound <=? Npos m * 2 ^ Z.to_N e)%N
  end.

(** [Number::toString] for a finite number at or above [10^21], which is
    an integer [X]: the shortest digit string [s] of length [k] with
    [𝔽(s × 10^(n-k)) = x], the closest to [X] when several have that
    length, printed in exponent notation. *)
Section LargeToString.
Variable x : number.
Variable X : N.

Let D : nat := String.length (string_of_N X).

Definition round_trips (s : N) (k : nat) : bool :=
  match s with
  | N0 => false
  | Npos p => SFeqb (of_decimal false p (Z.of_nat (D - k))) x
  end.

Definition shortest_at (k : nat) : option (N * nat) :=
  let p := (10 ^ N.of_nat (D - k))%N in
  let lo := (X / p)%N in
  let hi := (lo + 1)%N in
  let hi_result :=
    if (hi =? 10 ^ N.of_nat k)%N then ((10 ^ N.of_nat (k - 1))%N, S D)
    else (hi, D) in
  match round_trips lo k, round_trips hi k with
  | true, true =>
      let below := (X - lo * p)%N in
      let above := (hi * p - X)%N in
      match (below ?= above)%N with
      | Lt => Some (lo, D)
      | Gt => Some hi_result
      | Eq => if N.even lo then Some (lo, D) else Some hi_result
      end
  | true, false => Some (lo, D)
  | false, true => Some hi_result
  | false, false => None
  end.

Fixpoint shortest_from (fuel k : nat) : N * nat :=
  match fuel with
  | O => (X, D)
  | S fuel' =>
      match shortest_at k with
      | Some r => r
      | None => shortest_from fuel' (S k)
      end
  end.

Definition to_string_large : string :=
  let '(s, n) := shortest_from 17 1 in
  let ds := string_of_N s in
  let exponent := string_of_N (N.of_nat (n - 1)) in
  match ds with
  | String c EmptyString => ds ++ "e+" ++ exponent
  | String c rest => String c ("." ++ rest) ++ "e+" ++ exponent
  | EmptyString => ds
  end.
End LargeToString.

(** [Number.prototype.toFixed] with [f] fraction digits ([f <= 100]). *)
Definition toFixed (x : number) (f : nat) : string :=
  match x with
  | S754_nan => "NaN"
  | S754_infinity false => "Infinity"
  | S754_infinity true => "-Infinity"
  | S754_zero _ => with_point f 0
  | S754_finite s m e =>
      (if s then "-" else "") ++
      (if at_least m e (10 ^ 21) then
         to_string_large (S754_finite false m e) (round_scaled 0 m e)
       else with_point f (round_scaled f m e))
  end.

(** *** Arrays *)

(** [arr.reduce(f, init)]: the elements are visited by ascending index. *)
Fixpoint reduce {A B : Type} (f : B -> A -> B) (init : B) (arr : list A) : B :=
  match arr with
  | [] => init
  | a :: arr' => reduce f (f init a) arr'
  end.

(** The array left by [arr.splice(start, 1)], for an integral [start]: a
    negative [start] counts from the end, and nothing is deleted at or
    beyond the length. *)
Definition splice1 {A : Type} (arr : list A) (start : Z) : list A :=
  let len := Z.of_nat (length arr) in
  let actualStart :=
    if (start <? 0)%Z then Z.max (len + start) 0 else Z.min start len in
  let actualDeleteCount := Z.min 1 (len - actualStart) in
  take (Z.to_nat actualStart) arr ++
  drop (Z.to_nat (actualStart + actualDeleteCount)) arr.

End JS.

(** ** Data model of the quote screen *)

Module ProductColor.
Record t := { name : string; code : option string }.
End ProductColor.

Module Product.
Record t := {
  id : string;
  name : string;
  description : string;
  distributor_price : JS.number;
  client_price : JS.number;
  colors : list ProductColor.t
}.
End Product.

Module QuoteItem.
Record t := {
  product_id : string;
  product_name : string;
  color : option string;
  width : JS.number;
  height : JS.number;
  square_meters : JS.number;
  unit_price : JS.number;
  subtotal : JS.number;
  chain_orientation : string;
  fascia_type : string;
  fascia_color : string;
  fascia_price : JS.number;
  installation_price : JS.number
}.
End QuoteItem.

Module BusinessConfig.
Record t := { business_name : string; logo_base64 : option string }.
End BusinessConfig.

Record Pdf := { base64 : string; filename : string }.

(** The state hooks of [QuoteScreen], grouped as the source groups them:
    the form, the client information and the exported documents. The
    visibility flags of the pickers are left out; none of the handlers
    below reads or writes them. *)
Record Form := {
  selectedProduct : option Product.t;
  colorText : string;
  width : string;
  height : string;
  chainOrientation : string;
  fasciaType : string;
  fasciaColor : string;
  fasciaPrice : string;
  installationPrice : string
}.

Record ClientInfo := {
  clientName : string;
  clientPhone : string;
  clientEmail : string;
  notes : string
}.

Record Export := {
  showPdfModal : bool;
  distributorPdf : option Pdf;
  clientPdf : option Pdf
}.

Record State := {
  isDistributor : bool;
  products : list Product.t;
  quoteItems : list QuoteItem.t;
  loading : bool;
  refreshing : bool;
  savingQuote : bool;
  businessConfig : option BusinessConfig.t;
  form : Form;
  client : ClientInfo;
  export : Export
}.

(** The initial values of the hooks. *)
Definition initialForm : Form :=
  {| selectedProduct := None; colorText := ""; width := ""; height := "";
     chainOrientation := "Derecha"; fasciaType := "Redonda";
     fasciaColor := "Blanca"; fasciaPrice := ""; installationPrice := "" |}.

Definition emptyClient : ClientInfo :=
  {| clientName := ""; clientPhone := ""; clientEmail := ""; notes := "" |}.

Definition initialState : State :=
  {| isDistributor := true; products := []; quoteItems := [];
     loading := true; refreshing := false; savingQuote := false;
     businessConfig := None; form := initialForm; client := emptyClient;
     export := {| showPdfModal := false; distributorPdf := None;
                  clientPdf := None |} |}.

(** State setters. *)
Definition setIsDistributor (b : bool) (st : State) : State :=
  {| isDistributor := b; products := products st;
     quoteItems := quoteItems st; loading := loading st;
     refreshing := refreshing st; savingQuote := savingQuote st;
     businessConfig := businessConfig st; form := form st;
     client := client st; export := export st |}.

Definition setProducts (ps : list Product.t) (st : State) : State :=
  {| isDistributor := isDistributor st; products := ps;
     quoteItems := quoteItems st; loading := loading st;
     refreshing := refreshing st; savingQuote := savingQuote st;
     businessConfig := businessConfig st; form := form st;
     client := client st; export := export st |}.

Definition setQuoteItems (items : list QuoteItem.t) (st : State) : State :=
  {| isDistributor := isDistributor st; products := products st;
     quoteItems := items; loading := loading st;
     refreshing := refreshing st; savingQuote := savingQuote st;
     businessConfig := businessConfig st; form := form st;
     client := client st; export := export st |}.

Definition setLoading (b : bool) (st : State) : State :=
  {| isDistributor := isDistributor st; products := products st;
     quoteItems := quoteItems st; loading := b;
     refreshing := refreshing st; savingQuote := savingQuote st;
     businessConfig := businessConfig st; form := form st;
     client := client st; export := export st |}.

Definition setRefreshing (b : bool) (st : State) : State :=
  {| isDistributor := isDistributor st; products := products st;
     quoteItems := quoteItems st; loading := loading st;
     refreshing := b; savingQuote := savingQuote st;
     businessConfig := businessConfig st; form := form st;
     client := client st; export := export st |}.

Definition setSavingQuote (b : bool) (st : State) : State :=
  {| isDistributor := isDistributor st; products := products st;
     quoteItems := quoteItems st; loading := loading st;
     refreshing := refreshing st; savingQuote := b;
     businessConfig := businessConfig st; form := form st;
     client := client st; export := export st |}.

Definition setBusinessConfig (c : option BusinessConfig.t) (st : State)
  : State :=
  {| isDistributor := isDistributor st; products := products st;
     quoteItems := quoteItems st; loading := loading st;
     refreshing := refreshing st; savingQuote := savingQuote st;
     businessConfig := c; form := form st;
     client := client st; export := export st |}.

Definition setForm (f : Form) (st : State) : State :=
  {| isDistributor := isDistributor st; products := products st;
     quoteItems := quoteItems st; loading := loading st;
     refreshing := refreshing st; savingQuote := savingQuote st;
     businessConfig := businessConfig st; form := f;
     client := client st; export := export st |}.

Definition setClient (c : ClientInfo) (st : State) : State :=
  {| isDistributor := isDistributor st; products := products st;
     quoteItems := quoteItems st; loading := loading st;
     refreshing := refreshing st; savingQuote := savingQuote st;
     businessConfig := businessConfig st; form := form st;
     client := c; export := export st |}.

Definition setExport (e : Export) (st : State) : State :=
  {| isDistributor := isDistributor st; products := products st;
     quoteItems := quoteItems st; loading := loading st;
     refreshing := refreshing st; savingQuote := savingQuote st;
     businessConfig := businessConfig st; form := form st;
     client := client st; export := e |}.

(** ** Requests to the backend *)

(** The body of [POST /api/quotes]: the line items without their derived
    fields, the perspective and the client information. *)
Module QuoteItemCreate.
Record t := {
  product_id : string;
  product_name : string;
  color : option string;
  width : JS.number;
  height : JS.number;
  unit_price : JS.number;
  chain_orientation : string;
  fascia_type : string;
  fascia_color : string;
  fascia_price : JS.number;
  installation_price : JS.number
}.
End QuoteItemCreate.

Module QuoteCreate.
Record t := {
  items : list QuoteItemCreate.t;
  client_type : string;
  client_name : option string;
  client_phone : option string;
  client_email : option string;
  notes : option string
}.
End QuoteCreate.

Inductive request : Type :=
  | GET (url : string)
  | POST (url : string) (body : option QuoteCreate.t).

(** The decoded bodies the screens read. *)
Inductive json : Type :=
  | JProducts (data : list Product.t)
  | JConfig (data : BusinessConfig.t)
  | JQuote (id : string)
  | JPdfBoth (distributor_pdf_base64 distributor_filename
              client_pdf_base64 client_filename : string)
  | JOther.

Record response := { ok : bool; body : json }.

(** What a handler does besides updating the state. *)
Inductive effect : Type :=
  | Alert (title message : string)
  | ConsoleError (message : string)
  | Fetch (r : request).

(** ** The pricing handlers of [QuoteScreen] *)

Definition getPrice (st : State) (product : Product.t) : JS.number :=
  if isDistributor st then Product.distributor_price product
  else Product.client_price product.

Definition calculateSquareMeters (st : State) : JS.number :=
  let w := JS.or_else (JS.parseFloat (width (form st))) JS.zero in
  let h := JS.or_else (JS.parseFloat (height (form st))) JS.zero in
  JS.mul w h.

Definition getFasciaPriceValue (st : State) : JS.number :=
  JS.or_else (JS.parseFloat (fasciaPrice (form st))) JS.zero.

Definition getInstallationPriceValue (st : State) : JS.number :=
  JS.or_else (JS.parseFloat (installationPrice (form st))) JS.zero.

(** The line item [addItemToQuote] builds for the selected product and
    the parsed measurements. *)
Definition newItem (st : State) (selected : Product.t) (w h : JS.number)
  : QuoteItem.t :=
  let sqm := JS.mul w h in
  let unitPrice := getPrice st selected in
  let productSubtotal := JS.mul sqm unitPrice in
  let fasciaCost := getFasciaPriceValue st in
  let installationCost := getInstallationPriceValue st in
  let subtotal := JS.add (JS.add productSubtotal fasciaCost) installationCost in
  {| QuoteItem.product_id := Product.id selected;
     QuoteItem.product_name := Product.name selected;
     QuoteItem.color := JS.or_null (JS.trim (colorText (form st)));
     QuoteItem.width := w;
     QuoteItem.height := h;
     QuoteItem.square_meters := sqm;
     QuoteItem.unit_price := unitPrice;
     QuoteItem.subtotal := subtotal;
     QuoteItem.chain_orientation := chainOrientation (form st);
     QuoteItem.fascia_type := fasciaType (form st);
     QuoteItem.fascia_color := fasciaColor (form st);
     QuoteItem.fascia_price := fasciaCost;
     QuoteItem.installation_price := installationCost |}.

Definition addItemToQuote (st : State) : list effect * State :=
  match selectedProduct (form st) with
  | None => ([Alert "Error" "Selecciona un producto"], st)
  | Some selected =>
      let w := JS.parseFloat (width (form st)) in
      let h := JS.parseFloat (height (form st)) in
      if JS.isNaN w || JS.isNaN h || JS.leb w JS.zero || JS.leb h JS.zero
      then ([Alert "Error" "Ingresa medidas válidas"], st)
      else
        ([], setForm initialForm
               (setQuoteItems (quoteItems st ++ [newItem st selected w h]) st))
  end.

Definition removeItem (st : State) (index : Z) : State :=
  let newItems := JS.splice1 (quoteItems st) index in
  setQuoteItems newItems st.

Definition getTotal (st : State) : JS.number :=
  JS.reduce (fun sum item => JS.add sum (QuoteItem.subtotal item))
    JS.zero (quoteItems st).

(** The confirmed branch of [clearQuote]; cancelling leaves the state as
    it is. *)
Definition clearQuote (confirmed : bool) (st : State) : State :=
  if confirmed then setClient emptyClient (setQuoteItems [] st) else st.

(** ** Handlers that talk to the backend

    An asynchronous handler runs against a backend, which answers each
    request from its store and may change the store; a request the
    network loses has no answer and makes [fetch] throw. The handler's
    state updates, the requests it sends and the alerts it raises are
    recorded in the order they happen. A handler runs to its end before
    the next event is taken. *)

Section Handlers.
(** The store behind the API and the way it serves a request. *)
Variable Store : Type.
Variable serve : Store -> request -> Store * option response.
Variable BACKEND_URL : string.

Section Monad.
(** [S] is the state of the screen the handler belongs to. *)
Variable S : Type.

Record World := { screen : S; store : Store; trace : list effect }.

Inductive outcome (A : Type) : Type :=
  | Returned (a : A)
  | Thrown.
Global Arguments Returned {A} a.
Global Arguments Thrown {A}.

Definition M (A : Type) : Type := World -> World * outcome A.

Definition ret {A} (a : A) : M A := fun w => (w, Returned a).

Definition bind {A B} (m : M A) (k : A -> M B) : M B :=
  fun w =>
    match m w with
    | (w', Returned a) => k a w'
    | (w', Thrown) => (w', Thrown)
    end.

Definition throw {A} : M A := fun w => (w, Thrown).

(** [try { body } catch { handler }]. *)
Definition try_catch {A} (body handler : M A) : M A :=
  fun w =>
    match body w with
    | (w', Returned a) => (w', Returned a)
    | (w', Thrown) => handler w'
    end.

(** [{ body } finally { final }]: [final] runs either way, and a
    throw of [body] goes on after it. *)
Definition finally {A} (body : M A) (final : M unit) : M A :=
  fun w =>
    let '(w', r) := body w in
    match final w' with
    | (w'', Returned _) => (w'', r)
    | (w'', Thrown) => (w'', Thrown)
    end.

Definition update (f : S -> S) : M unit :=
  fun w =>
    ({| screen := f (screen w); store := store w; trace := trace w |},
     Returned tt).

Definition emit (e : effect) : M unit :=
  fun w =>
    ({| screen := screen w; store := store w;
        trace := trace w ++ [e] |}, Returned tt).

Definition fetch (r : request) : M response :=
  fun w =>
    let '(store', answer) := serve (store w) r in
    let w' := {| screen := screen w; store := store';
                 trace := trace w ++ [Fetch r] |} in
    match answer with
    | Some resp => (w', Returned resp)
    | None => (w', Thrown)
    end.

(** [response.json()] read at the type the caller gives it; a body of
    another shape fails to decode. *)
Definition json_products (resp : response) : M (list Product.t) :=
  match body resp with JProducts data => ret data | _ => throw end.

Definition json_config (resp : response) : M BusinessConfig.t :=
  match body resp with JConfig data => ret data | _ => throw end.
End Monad.

Arguments ret {S A} a.
Arguments bind {S A B} m k.
Arguments throw {S A}.
Arguments try_catch {S A} body handler.
Arguments finally {S A} body final.
Arguments update {S} f.
Arguments emit {S} e.
Arguments fetch {S} r.
Arguments json_products {S} resp.
Arguments json_config {S} resp.

Notation "x <- m ;; k" := (bind m (fun x => k))
  (at level 100, m at next level, right associativity).
Notation "m ;;; k" := (bind m (fun _ => k))
  (at level 100, right associativity).

(** [fetchData] of the quote screen. *)
Definition fetchData : M State unit :=
  finally
    (try_catch
       (productsResponse <- fetch (GET (BACKEND_URL ++ "/api/products")) ;;
        (if ok productsResponse then
           productsData <- json_products productsResponse ;;
           if (length productsData =? 0)%nat then
             fetch (POST (BACKEND_URL ++ "/api/products/seed") None) ;;;
             newResponse <- fetch (GET (BACKEND_URL ++ "/api/products")) ;;
             newData <- json_products newResponse ;;
             update (setProducts newData)
           else update (setProducts productsData)
         else ret tt) ;;;
        configResponse <- fetch (GET (BACKEND_URL ++ "/api/config")) ;;
        if ok configResponse then
          configData <- json_config configResponse ;;
          update (setBusinessConfig (Some configData))
        else ret tt)
       (emit (ConsoleError "Error fetching data:") ;;;
        emit (Alert "Error" "No se pudieron cargar los datos")))
    (update (setLoading false) ;;; update (setRefreshing false)).

Definition onRefresh : M State unit :=
  update (setRefreshing true) ;;; fetchData.

(** The request body [saveAndExportPDF] builds from the state. *)
Definition itemCreate (item : QuoteItem.t) : QuoteItemCreate.t :=
  {| QuoteItemCreate.product_id := QuoteItem.product_id item;
     QuoteItemCreate.product_name := QuoteItem.product_name item;
     QuoteItemCreate.color := QuoteItem.color item;
     QuoteItemCreate.width := QuoteItem.width item;
     QuoteItemCreate.height := QuoteItem.height item;
     QuoteItemCreate.unit_price := QuoteItem.unit_price item;
     QuoteItemCreate.chain_orientation := QuoteItem.chain_orientation item;
     QuoteItemCreate.fascia_type := QuoteItem.fascia_type item;
     QuoteItemCreate.fascia_color := QuoteItem.fascia_color item;
     QuoteItemCreate.fascia_price := QuoteItem.fascia_price item;
     QuoteItemCreate.installation_price :=
       QuoteItem.installation_price item |}.

Definition quoteData (st : State) : QuoteCreate.t :=
  {| QuoteCreate.items := map itemCreate (quoteItems st);
     QuoteCreate.client_type :=
       if isDistributor st then "distributor" else "client";
     QuoteCreate.client_name := JS.or_null (clientName (client st));
     QuoteCreate.client_phone := JS.or_null (clientPhone (client st));
     QuoteCreate.client_email := JS.or_null (clientEmail (client st));
     QuoteCreate.notes := JS.or_null (notes (client st)) |}.

(** [saveAndExportPDF], called in the state [st]. *)
Definition saveAndExportPDF (st : State) : M State unit :=
  if (length (quoteItems st) =? 0)%nat then
    emit (Alert "Error" "Agrega al menos un producto a la cotización")
  else
    update (setSavingQuote true) ;;;
    finally
      (try_catch
         (resp <- fetch (POST (BACKEND_URL ++ "/api/quotes")
                           (Some (quoteData st))) ;;
          (if negb (ok resp) then throw else ret tt) ;;;
          savedQuote <- match body resp with
                        | JQuote id => ret id
                        | _ => throw
                        end ;;
          pdfResponse <- fetch (GET (BACKEND_URL ++ "/api/quotes/"
                                     ++ savedQuote ++ "/pdf/both")) ;;
          (if negb (ok pdfResponse) then throw else ret tt) ;;;
          match body pdfResponse with
          | JPdfBoth dist_b64 dist_name client_b64 client_name =>
              update (setExport
                        {| showPdfModal := true;
                           distributorPdf :=
                             Some {| base64 := dist_b64;
                                     filename := dist_name |};
                           clientPdf :=
                             Some {| base64 := client_b64;
                                     filename := client_name |} |}) ;;;
              update (setQuoteItems []) ;;;
              update (setClient emptyClient)
          | _ => throw
          end)
         (emit (ConsoleError "Error saving quote:") ;;;
          emit (Alert "Error" "No se pudo guardar la cotización")))
      (update (setSavingQuote false)).

(** [fetchProducts], which the products screen and the quote screen of
    [index.tsx] both have, over the three hooks it sets. *)
Section FetchProducts.
Variable S : Type.
Variable setProducts' : list Product.t -> S -> S.
Variables setLoading' setRefreshing' : bool -> S -> S.

Definition fetchProducts : M S unit :=
  finally
    (try_catch
       (resp <- fetch (GET (BACKEND_URL ++ "/api/products")) ;;
        if ok resp then
          data <- json_products resp ;;
          if (length data =? 0)%nat then
            fetch (POST (BACKEND_URL ++ "/api/products/seed") None) ;;;
            newResponse <- fetch (GET (BACKEND_URL ++ "/api/products")) ;;
            newData <- json_products newResponse ;;
            update (setProducts' newData)
          else update (setProducts' data)
        else ret tt)
       (emit (ConsoleError "Error fetching products:") ;;;
        emit (Alert "Error" "No se pudieron cargar los productos")))
    (update (setLoading' false) ;;; update (setRefreshing' false)).
End FetchProducts.

End Handlers.

Arguments screen {Store S} w.
Arguments store {Store S} w.
Arguments trace {Store S} w.
Arguments Build_World {Store S} screen store trace.
Arguments ret {Store S A} a.
Arguments bind {Store S A B} m k.
Arguments throw {Store S A}.
Arguments try_catch {Store S A} body handler.
Arguments finally {Store S A} body final.
Arguments update {Store S} f.
Arguments emit {Store S} e.
Arguments fetch {Store} serve {S} r.
Arguments json_products {Store S} resp.
Arguments json_config {Store S} resp.

(** The handler [m] maintains the property [inv] of the screen state,
    whatever the backend answers and whether it returns or throws. *)
Definition keeps {Store S A : Type} (inv : S -> Prop) (m : M Store S A)
  : Prop :=
  forall w, inv (screen w) -> inv (screen (fst (m w))).

(** The effects a handler adds to the trace of [w]. *)
Definition effects_of {Store S A : Type} (m : M Store S A)
  (w : World Store S) : list effect :=
  drop (length (trace w)) (trace (fst (m w))).

(** The area shown under the measurement fields while they are edited. *)
Definition areaLabel (st : State) : string :=
  JS.toFixed (calculateSquareMeters st) 2 ++ " m²".

(** ** The products screen *)

Module ProductsScreen.
(** The hooks [fetchProducts] sets; the modal and the product form are
    not touched by it. *)
Record State := {
  products : list Product.t;
  loading : bool;
  refreshing : bool
}.

Definition setProducts (ps : list Product.t) (st : State) : State :=
  {| products := ps; loading := loading st; refreshing := refreshing st |}.
Definition setLoading (b : bool) (st : State) : State :=
  {| products := products st; loading := b; refreshing := refreshing st |}.
Definition setRefreshing (b : bool) (st : State) : State :=
  {| products := products st; loading := loading st; refreshing := b |}.

Definition fetchProducts
  (Store : Type) (serve : Store -> request -> Store * option response)
  (BACKEND_URL : string) : M Store State unit :=
  fetchProducts Store serve BACKEND_URL State
    setProducts setLoading setRefreshing.
End ProductsScreen.

(** ** The quote screen without add-ons *)

Module NoAddons.
Module QuoteItem.
Record t := {
  product_id : string;
  product_name : string;
  width : JS.number;
  height : JS.number;
  square_meters : JS.number;
  unit_price : JS.number;
  subtotal : JS.number
}.
End QuoteItem.

(** The hooks the pricing handlers read and write. *)
Record State := {
  isDistributor : bool;
  products : list Product.t;
  quoteItems : list QuoteItem.t;
  selectedProduct : option Product.t;
  width : string;
  height : string
}.

Definition getPrice (st : State) (product : Product.t) : JS.number :=
  if isDistributor st then Product.distributor_price product
  else Product.client_price product.

Definition calculateSquareMeters (st : State) : JS.number :=
  let w := JS.or_else (JS.parseFloat (width st)) JS.zero in
  let h := JS.or_else (JS.parseFloat (height st)) JS.zero in
  JS.mul w h.

Definition newItem (st : State) (selected : Product.t) (w h : JS.number)
  : QuoteItem.t :=
  let sqm := JS.mul w h in
  let unitPrice := getPrice st selected in
  let subtotal := JS.mul sqm unitPrice in
  {| QuoteItem.product_id := Product.id selected;
     QuoteItem.product_name := Product.name selected;
     QuoteItem.width := w;
     QuoteItem.height := h;
     QuoteItem.square_meters := sqm;
     QuoteItem.unit_price := unitPrice;
     QuoteItem.subtotal := subtotal |}.

Definition addItemToQuote (st : State) : list effect * State :=
  match selectedProduct st with
  | None => ([Alert "Error" "Selecciona un producto"], st)
  | Some selected =>
      let w := JS.parseFloat (width st) in
      let h := JS.parseFloat (height st) in
      if JS.isNaN w || JS.isNaN h || JS.leb w JS.zero || JS.leb h JS.zero
      then ([Alert "Error" "Ingresa medidas válidas"], st)
      else
        ([], {| isDistributor := isDistributor st;
                products := products st;
                quoteItems := quoteItems st ++ [newItem st selected w h];
                selectedProduct := None; width := ""; height := "" |})
  end.

Definition removeItem (st : State) (index : Z) : State :=
  {| isDistributor := isDistributor st; products := products st;
     quoteItems := JS.splice1 (quoteItems st) index;
     selectedProduct := selectedProduct st;
     width := width st; height := height st |}.

Definition getTotal (st : State) : JS.number :=
  JS.reduce (fun sum item => JS.add sum (QuoteItem.subtotal item))
    JS.zero (quoteItems st).
End NoAddons.

(** ** The catalog behind the API *)

Module SpecBackend.
Section Catalog.
Variable initial_catalog : list Product.t.
Variable BACKEND_URL : string.

(** Modelled from the spec: the [seed] operation of the backend,
    whose code is not among the sources: "populates a fixed initial
    catalog when the catalog is empty, idempotent (no-op if products
    already exist)". *)
Definition seed (catalog : list Product.t) : list Product.t :=
  match catalog with
  | [] => initial_catalog
  | _ :: _ => catalog
  end.

(** Modelled from the spec: the catalog routes of the backend, whose
    code is not among the sources: the list of products, the seed
    operation, and a configuration that is blank by default. Other
    routes are not modelled and answer with an error status. *)
Definition serve (catalog : list Product.t) (r : request)
  : list Product.t * option response :=
  let not_found := Some {| ok := false; body := JOther |} in
  match r with
  | GET url =>
      if String.eqb url (BACKEND_URL ++ "/api/products") then
        (catalog, Some {| ok := true; body := JProducts catalog |})
      else if String.eqb url (BACKEND_URL ++ "/api/config") then
        (catalog,
         Some {| ok := true;
                 body := JConfig
                           {| BusinessConfig.business_name := "";
                              BusinessConfig.logo_base64 := None |} |})
      else (catalog, not_found)
  | POST url _ =>
      if String.eqb url (BACKEND_URL ++ "/api/products/seed") then
        (seed catalog, Some {| ok := true; body := JOther |})
      else (catalog, not_found)
  end.
End Catalog.
End SpecBackend.

(** ** The events of the quote screen *)

Section Run.
Variable Store : Type.
Variable serve : Store -> request -> Store * option response.
Variable BACKEND_URL : string.

(** What the user does on the screen, and [CatalogEdit]: the store is
    changed from outside the screen, as when a price is edited or a
    product deleted on the products screen. *)
Inductive event : Type :=
  | SetPerspective (distributor : bool)
  | SelectProduct (product : Product.t)
  | EditForm (f : Form)
  | EditClient (c : ClientInfo)
  | PressAdd
  | PressRemove (index : Z)
  | PressClear (confirmed : bool)
  | Mount
  | PullRefresh
  | PressSave
  | CatalogEdit (edit : Store -> Store).

Definition step (w : World Store State) (ev : event) : World Store State :=
  let st := screen w in
  let pure st' effects :=
    {| screen := st'; store := store w;
       trace := trace w ++ effects |} in
  match ev with
  | SetPerspective b => pure (setIsDistributor b st) []
  | SelectProduct p =>
      pure (setForm
              {| selectedProduct := Some p; colorText := "";
                 width := width (form st); height := height (form st);
                 chainOrientation := chainOrientation (form st);
                 fasciaType := fasciaType (form st);
                 fasciaColor := fasciaColor (form st);
                 fasciaPrice := fasciaPrice (form st);
                 installationPrice := installationPrice (form st) |} st) []
  | EditForm f => pure (setForm f st) []
  | EditClient c => pure (setClient c st) []
  | PressAdd => let '(effects, st') := addItemToQuote st in pure st' effects
  | PressRemove index => pure (removeItem st index) []
  | PressClear confirmed => pure (clearQuote confirmed st) []
  | Mount => fst (fetchData Store serve BACKEND_URL w)
  | PullRefresh => fst (onRefresh Store serve BACKEND_URL w)
  | PressSave => fst (saveAndExportPDF Store serve BACKEND_URL st w)
  | CatalogEdit edit =>
      {| screen := st; store := edit (store w);
         trace := trace w |}
  end.

Definition run (w : World Store State) (evs : list event)
  : World Store State :=
  fold_left step evs w.

(** The events that touch the list of line items. *)
Definition edits_items (ev : event) : bool :=
  match ev with
  | PressAdd | PressRemove _ | PressClear _ | PressSave => true
  | _ => false
  end.
End Run.

Arguments SetPerspective {Store} distributor.
Arguments SelectProduct {Store} product.
Arguments EditForm {Store} f.
Arguments EditClient {Store} c.
Arguments PressAdd {Store}.
Arguments PressRemove {Store} index.
Arguments PressClear {Store} confirmed.
Arguments Mount {Store}.
Arguments PullRefresh {Store}.
Arguments PressSave {Store}.
Arguments CatalogEdit {Store} edit.
Arguments edits_items {Store} ev.

(** The sum of a list of numbers, taken from the left. *)
Definition sum_numbers (l : list JS.number) : JS.number :=
  fold_left JS.add l JS.zero.

(** The exact value of a finite number. *)
Definition exact (x : JS.number) : option Q :=
  match x with
  | S754_zero _ => Some 0%Q
  | S754_finite s m e =>
      let v := match e with
               | Zneg k => (Zpos m # Pos.pow 2 k)%Q
               | _ => inject_Z (Zpos m * 2 ^ e)
               end in
      Some (if s then Qopp v else v)
  | _ => None
  end.

(** [x] is finite and within the relative error [tol] of [target]. *)
Definition within (tol : Q) (x : JS.number) (target : Q) : bool :=
  match exact x with
  | Some v => Qle_bool (Qabs (v - target)) (tol * Qabs target)
  | None => false
  end.

(** ** Scenario data *)

(** The product of the specification's scenarios, priced 45.00 for
    distributors and 60.00 for clients. *)
Definition scenarioProduct : Product.t :=
  {| Product.id := "prod-1"; Product.name := "Screen";
     Product.description := "";
     Product.distributor_price := JS.of_Z 45;
     Product.client_price := JS.of_Z 60;
     Product.colors := [] |}.

(** The screen with [scenarioProduct] selected and the four numeric
    fields filled in. *)
Definition filled (distributor : bool) (w h fascia installation : string)
  : State :=
  setForm
    {| selectedProduct := Some scenarioProduct; colorText := "";
       width := w; height := h; chainOrientation := "Derecha";
       fasciaType := "Redonda"; fasciaColor := "Blanca";
       fasciaPrice := fascia; installationPrice := installation |}
    (setIsDistributor distributor initialState).

(** ** The pricing preconditions as the specification words them *)

(** A measurement that is not a number or not positive. *)
Definition invalid_measurement (st : State) : Prop :=
  let w := JS.parseFloat (width (form st)) in
  let h := JS.parseFloat (height (form st)) in
  JS.isNaN w = true \/ JS.isNaN h = true \/
  JS.leb w JS.zero = true \/ JS.leb h JS.zero = true.

(** A supplied add-on below zero. *)
Definition negative_addon (st : State) : Prop :=
  JS.ltb (JS.parseFloat (fasciaPrice (form st))) JS.zero = true \/
  JS.ltb (JS.parseFloat (installationPrice (form st))) JS.zero = true.

(** The handler reports an error and leaves the state as it was. *)
Definition rejected (st : State) : Prop :=
  exists message, addItemToQuote st = ([Alert "Error" message], st).


(** The quote of the scenarios: a distributor item of 1.20 by 1.50 and a
    client item of the same size with both add-ons. *)
Definition scenarioQuote : State :=
  let st1 := snd (addItemToQuote (filled true "1.20" "1.50" "" "")) in
  snd (addItemToQuote
         (setForm (form (filled false "1.20" "1.50" "150" "200"))
            (setIsDistributor false st1))).

(** A backend that is never reached. *)
Definition offline (s : unit) (r : request) : unit * option response :=
  (s, None).

(** A second catalog entry for the scenarios. *)
Definition scenarioBlackout : Product.t :=
  {| Product.id := "prod-2"; Product.name := "Blackout";
     Product.description := "";
     Product.distributor_price := JS.of_Z 55;
     Product.client_price := JS.of_Z 75;
     Product.colors := [] |}.

(** An input that is empty or does not start with a number. *)
Definition unparseable (s : string) : Prop :=
  s = "" \/ JS.parseFloat s = JS.NaN.

(** A number other than the two infinities. *)
Definition not_infinite (x : JS.number) : Prop :=
  forall s, x <> S754_infinity s.

(** The tolerance of the numeric properties: a relative error of 1e-9. *)
Definition tolerance : Q := 1 # 1000000000.


(** ** What the quote screen shows *)

(** A string in a condition: the empty string is falsy. *)
Definition nonempty (s : string) : bool :=
  match s with
  | EmptyString => false
  | _ => true
  end.

(** The subtotal shown under the form, which appears once a product is
    selected and both measurement fields have text. *)
Definition subtotalPreview (st : State) : option string :=
  match selectedProduct (form st) with
  | Some selected =>
      if nonempty (width (form st)) && nonempty (height (form st)) then
        Some ("$" ++
              JS.toFixed
                (JS.add
                   (JS.add
                      (JS.mul (calculateSquareMeters st) (getPrice st selected))
                      (getFasciaPriceValue st))
                   (getInstallationPriceValue st)) 2)
      else None
  | None => None
  end.

(** The name under the title: the configured business name, or the
    default when there is no configuration or the name is empty. *)
Definition headerSubtitle (st : State) : string :=
  match businessConfig st with
  | Some config =>
      if nonempty (BusinessConfig.business_name config)
      then BusinessConfig.business_name config
      else "Persianas Enrollables"
  | None => "Persianas Enrollables"
  end.

(** ** Line items as the handlers build them *)

(** What [addItemToQuote] establishes for the item it stores. *)
Definition well_priced (item : QuoteItem.t) : Prop :=
  JS.ltb JS.zero (QuoteItem.width item) = true /\
  JS.ltb JS.zero (QuoteItem.height item) = true /\
  QuoteItem.square_meters item =
    JS.mul (QuoteItem.width item) (QuoteItem.height item) /\
  JS.leb JS.zero (QuoteItem.square_meters item) = true /\
  JS.isNaN (QuoteItem.fascia_price item) = false /\
  JS.isNaN (QuoteItem.installation_price item) = false /\
  QuoteItem.subtotal item =
    JS.add
      (JS.add (JS.mul (QuoteItem.square_meters item) (QuoteItem.unit_price item))
         (QuoteItem.fascia_price item))
      (QuoteItem.installation_price item).

(** ** Requests in a trace *)

Definition is_fetch (e : effect) : bool :=
  match e with
  | Fetch _ => true
  | _ => false
  end.

Definition is_alert (e : effect) : bool :=
  match e with
  | Alert _ _ => true
  | _ => false
  end.

(** The request that asks the backend to seed the catalog. *)
Definition is_seed (BACKEND_URL : string) (e : effect) : bool :=
  match e with
  | Fetch (POST url None) => String.eqb url (BACKEND_URL ++ "/api/products/seed")
  | _ => false
  end.

(** The state a successful save leaves: the documents are kept for
    sharing, and the quote and the client information are cleared. *)
Definition savedState (st : State) (dist_b64 dist_name client_b64 client_name : string)
  : State :=
  setSavingQuote false
    (setClient emptyClient
       (setQuoteItems []
          (setExport
             {| showPdfModal := true;
                distributorPdf :=
                  Some {| base64 := dist_b64; filename := dist_name |};
                clientPdf :=
                  Some {| base64 := client_b64; filename := client_name |} |}
             st))).


(** ** The controls of the quote screen *)

Definition CHAIN_OPTIONS : list string := ["Izquierda"; "Derecha"].
Definition FASCIA_OPTIONS : list string :=
  ["Redonda"; "Cuadrada sin forrar"; "Cuadrada forrada"].
Definition FASCIA_COLOR_OPTIONS : list string :=
  ["Negra"; "Blanca"; "Gris"; "Café"; "Ivory"].

(** The setters of the form hooks. *)
Definition setColorText (s : string) (f : Form) : Form :=
  {| selectedProduct := selectedProduct f; colorText := s;
     width := width f; height := height f;
     chainOrientation := chainOrientation f; fasciaType := fasciaType f;
     fasciaColor := fasciaColor f; fasciaPrice := fasciaPrice f;
     installationPrice := installationPrice f |}.

Definition setWidth (s : string) (f : Form) : Form :=
  {| selectedProduct := selectedProduct f; colorText := colorText f;
     width := s; height := height f;
     chainOrientation := chainOrientation f; fasciaType := fasciaType f;
     fasciaColor := fasciaColor f; fasciaPrice := fasciaPrice f;
     installationPrice := installationPrice f |}.

Definition setHeight (s : string) (f : Form) : Form :=
  {| selectedProduct := selectedProduct f; colorText := colorText f;
     width := width f; height := s;
     chainOrientation := chainOrientation f; fasciaType := fasciaType f;
     fasciaColor := fasciaColor f; fasciaPrice := fasciaPrice f;
     installationPrice := installationPrice f |}.

Definition setChainOrientation (s : string) (f : Form) : Form :=
  {| selectedProduct := selectedProduct f; colorText := colorText f;
     width := width f; height := height f;
     chainOrientation := s; fasciaType := fasciaType f;
     fasciaColor := fasciaColor f; fasciaPrice := fasciaPrice f;
     installationPrice := installationPrice f |}.

Definition setFasciaType (s : string) (f : Form) : Form :=
  {| selectedProduct := selectedProduct f; colorText := colorText f;
     width := width f; height := height f;
     chainOrientation := chainOrientation f; fasciaType := s;
     fasciaColor := fasciaColor f; fasciaPrice := fasciaPrice f;
     installationPrice := installationPrice f |}.

Definition setFasciaColor (s : string) (f : Form) : Form :=
  {| selectedProduct := selectedProduct f; colorText := colorText f;
     width := width f; height := height f;
     chainOrientation := chainOrientation f; fasciaType := fasciaType f;
     fasciaColor := s; fasciaPrice := fasciaPrice f;
     installationPrice := installationPrice f |}.

Definition setFasciaPrice (s : string) (f : Form) : Form :=
  {| selectedProduct := selectedProduct f; colorText := colorText f;
     width := width f; height := height f;
     chainOrientation := chainOrientation f; fasciaType := fasciaType f;
     fasciaColor := fasciaColor f; fasciaPrice := s;
     installationPrice := installationPrice f |}.

Definition setInstallationPrice (s : string) (f : Form) : Form :=
  {| selectedProduct := selectedProduct f; colorText := colorText f;
     width := width f; height := height f;
     chainOrientation := chainOrientation f; fasciaType := fasciaType f;
     fasciaColor := fasciaColor f; fasciaPrice := fasciaPrice f;
     installationPrice := s |}.

(** The four client fields. *)
Inductive clientField : Type :=
  | NameField
  | PhoneField
  | EmailField
  | NotesField.

Definition setClientField (field : clientField) (s : string) (c : ClientInfo)
  : ClientInfo :=
  match field with
  | NameField =>
      {| clientName := s; clientPhone := clientPhone c;
         clientEmail := clientEmail c; notes := notes c |}
  | PhoneField =>
      {| clientName := clientName c; clientPhone := s;
         clientEmail := clientEmail c; notes := notes c |}
  | EmailField =>
      {| clientName := clientName c; clientPhone := clientPhone c;
         clientEmail := s; notes := notes c |}
  | NotesField =>
      {| clientName := clientName c; clientPhone := clientPhone c;
         clientEmail := clientEmail c; notes := s |}
  end.

(** What can be touched on the screen. A picker offers one row for each
    element of its list, the list of items one remove button for each
    item; the colour field is there once a product is selected, and the
    client fields, the clear button and the export button once the quote
    has an item. The export button is disabled while a quote is saved. *)
Inductive control : Type :=
  | PerspectiveButton (distributor : bool)
  | ProductRow (i : nat)
  | ColorInput (text : string)
  | WidthInput (text : string)
  | HeightInput (text : string)
  | ChainRow (i : nat)
  | FasciaRow (i : nat)
  | FasciaColorRow (i : nat)
  | FasciaPriceInput (text : string)
  | InstallationPriceInput (text : string)
  | ClientInput (field : clientField) (text : string)
  | AddButton
  | RemoveButton (i : nat)
  | ClearButton (confirmed : bool)
  | PullDown
  | ExportButton.

Section Operate.
Variable Store : Type.
Variable serve : Store -> request -> Store * option response.
Variable BACKEND_URL : string.

(** The event a control raises in a state, if the control is on the
    screen. *)
Definition raised (st : State) (c : control) : option (event Store) :=
  let has_items := negb (length (quoteItems st) =? 0)%nat in
  let edit (change : Form -> Form) := Some (EditForm (change (form st))) in
  match c with
  | PerspectiveButton b => Some (SetPerspective b)
  | ProductRow i => SelectProduct <$> products st !! i
  | ColorInput text =>
      match selectedProduct (form st) with
      | Some _ => edit (setColorText text)
      | None => None
      end
  | WidthInput text => edit (setWidth text)
  | HeightInput text => edit (setHeight text)
  | ChainRow i =>
      (fun option => EditForm (setChainOrientation option (form st)))
        <$> CHAIN_OPTIONS !! i
  | FasciaRow i =>
      (fun option => EditForm (setFasciaType option (form st)))
        <$> FASCIA_OPTIONS !! i
  | FasciaColorRow i =>
      (fun option => EditForm (setFasciaColor option (form st)))
        <$> FASCIA_COLOR_OPTIONS !! i
  | FasciaPriceInput text => edit (setFasciaPrice text)
  | InstallationPriceInput text => edit (setInstallationPrice text)
  | ClientInput field text =>
      if has_items
      then Some (EditClient (setClientField field text (client st)))
      else None
  | AddButton => Some PressAdd
  | RemoveButton i =>
      if (i <? length (quoteItems st))%nat
      then Some (PressRemove (Z.of_nat i))
      else None
  | ClearButton confirmed =>
      if has_items then Some (PressClear confirmed) else None
  | PullDown => Some PullRefresh
  | ExportButton =>
      if has_items && negb (savingQuote st) then Some PressSave else None
  end.

Definition operate (w : World Store State) (c : control)
  : World Store State :=
  match raised (screen w) c with
  | Some ev => step Store serve BACKEND_URL w ev
  | None => w
  end.

(** The screen after it is mounted and a sequence of controls is used. *)
Definition session (w : World Store State) (cs : list control)
  : World Store State :=
  fold_left operate cs (step Store serve BACKEND_URL w Mount).
End Operate.

(** The accessories of a line item, or of the form, are among the ones
    the pickers offer. *)
Definition offered (chain fascia fascia_color : string) : Prop :=
  chain ∈ CHAIN_OPTIONS /\ fascia ∈ FASCIA_OPTIONS /\
  fascia_color ∈ FASCIA_COLOR_OPTIONS.

Definition offered_item (item : QuoteItem.t) : Prop :=
  offered (QuoteItem.chain_orientation item) (QuoteItem.fascia_type item)
    (QuoteItem.fascia_color item).

Definition offered_form (f : Form) : Prop :=
  offered (chainOrientation f) (fasciaType f) (fasciaColor f).

(** ** Handlers that use the device or edit the catalog

    Besides the requests above, these handlers write files, share them
    and send requests that carry a product. They run against an
    environment that holds the backend and the device; a call the
    environment fails makes the handler throw. *)

Module ProductData.
Record t := {
  name : string;
  description : string;
  distributor_price : JS.number;
  client_price : JS.number;
  colors : list ProductColor.t
}.
End ProductData.

(** [fetch(url, { method, headers, body })] with a product, or nothing,
    as body. *)
Record productRequest := {
  method : string;
  url : string;
  payload : option ProductData.t
}.

Inductive action : Type :=
  | Effect (e : effect)
  | FetchWith (r : productRequest)
  | WriteAsString (fileUri contents : string)
  | Share (fileUri : string).

Module Act.
Section WithEnvironment.
Variable Env : Type.
(** The answers of the environment: the response of a request that
    carries a product is read for its [ok] only; writing and sharing
    succeed or fail. *)
Variable serveWith : Env -> productRequest -> Env * option bool.
Variable writeAsStringAsync : Env -> string -> string -> Env * bool.
Variable isAvailableAsync : Env -> bool.
Variable shareAsync : Env -> string -> Env * bool.
Variable S : Type.

Record Scene := { view : S; env : Env; log : list action }.

Definition t (A : Type) : Type := Scene -> Scene * outcome A.

Definition ret {A} (a : A) : t A := fun sc => (sc, Returned a).

Definition bind {A B} (m : t A) (k : A -> t B) : t B :=
  fun sc =>
    match m sc with
    | (sc', Returned a) => k a sc'
    | (sc', Thrown) => (sc', Thrown)
    end.

Definition throw {A} : t A := fun sc => (sc, Thrown).

Definition try_catch {A} (body handler : t A) : t A :=
  fun sc =>
    match body sc with
    | (sc', Returned a) => (sc', Returned a)
    | (sc', Thrown) => handler sc'
    end.

Definition finally {A} (body : t A) (final : t unit) : t A :=
  fun sc =>
    let '(sc', r) := body sc in
    match final sc' with
    | (sc'', Returned _) => (sc'', r)
    | (sc'', Thrown) => (sc'', Thrown)
    end.

Definition update (f : S -> S) : t unit :=
  fun sc =>
    ({| view := f (view sc); env := env sc; log := log sc |}, Returned tt).

Definition emit (e : effect) : t unit :=
  fun sc =>
    ({| view := view sc; env := env sc; log := log sc ++ [Effect e] |},
     Returned tt).

(** A handler of the kind above, run in place: its effects join the
    log. *)
Definition lift {A} (m : M Env S A) : t A :=
  fun sc =>
    let '(w, r) := m {| screen := view sc; store := env sc; trace := [] |} in
    ({| view := screen w; env := store w;
        log := log sc ++ map Effect (trace w) |}, r).

Definition fetchWith (r : productRequest) : t bool :=
  fun sc =>
    let '(env', answer) := serveWith (env sc) r in
    let sc' := {| view := view sc; env := env';
                  log := log sc ++ [FetchWith r] |} in
    match answer with
    | Some ok => (sc', Returned ok)
    | None => (sc', Thrown)
    end.

Definition write (fileUri contents : string) : t unit :=
  fun sc =>
    let '(env', done) := writeAsStringAsync (env sc) fileUri contents in
    let sc' := {| view := view sc; env := env';
                  log := log sc ++ [WriteAsString fileUri contents] |} in
    (sc', if done then Returned tt else Thrown).

Definition available : t bool :=
  fun sc => (sc, Returned (isAvailableAsync (env sc))).

Definition share (fileUri : string) : t unit :=
  fun sc =>
    let '(env', done) := shareAsync (env sc) fileUri in
    let sc' := {| view := view sc; env := env';
                  log := log sc ++ [Share fileUri] |} in
    (sc', if done then Returned tt else Thrown).

(** The actions a handler adds to the log of [sc]. *)
Definition actions_of {A} (m : t A) (sc : Scene) : list action :=
  drop (length (log sc)) (log (fst (m sc))).
End WithEnvironment.

Arguments view {Env S} s.
Arguments env {Env S} s.
Arguments log {Env S} s.
Arguments Build_Scene {Env S} view env log.
Arguments ret {Env S A} a.
Arguments bind {Env S A B} m k.
Arguments throw {Env S A}.
Arguments try_catch {Env S A} body handler.
Arguments finally {Env S A} body final.
Arguments update {Env S} f.
Arguments emit {Env S} e.
Arguments lift {Env S A} m.
Arguments fetchWith {Env} serveWith {S} r.
Arguments write {Env} writeAsStringAsync {S} fileUri contents.
Arguments available {Env} isAvailableAsync {S}.
Arguments share {Env} shareAsync {S} fileUri.
Arguments actions_of {Env S A} m sc.
End Act.

Notation "x <-- m ;; k" := (Act.bind m (fun x => k))
  (at level 100, m at next level, right associativity).
Notation "m ;;;; k" := (Act.bind m (fun _ => k))
  (at level 100, right associativity).

(** ** Sharing the documents of a saved quote *)

(** The two values of [pdfType], ['distributor'] and ['client']. *)
Inductive pdfType : Type :=
  | ForDistributor
  | ForClient.

Section Sharing.
Variable Env : Type.
Variable writeAsStringAsync : Env -> string -> string -> Env * bool.
Variable isAvailableAsync : Env -> bool.
Variable shareAsync : Env -> string -> Env * bool.
(** [FileSystem.documentDirectory], as it reads in a string. *)
Variable documentDirectory : string.

(** [sharePdf], called in the state [st]. *)
Definition sharePdf (st : State) (type : pdfType) : Act.t Env State unit :=
  let pdfData :=
    match type with
    | ForDistributor => distributorPdf (export st)
    | ForClient => clientPdf (export st)
    end in
  match pdfData with
  | None => Act.emit (Alert "Error" "No hay PDF disponible")
  | Some pdfData =>
      Act.try_catch
        (let fileUri := documentDirectory ++ filename pdfData in
         Act.write writeAsStringAsync fileUri (base64 pdfData) ;;;;
         can <-- Act.available isAvailableAsync ;;
         if can then Act.share shareAsync fileUri
         else Act.emit (Alert "Éxito" "PDF generado correctamente."))
        (Act.emit (ConsoleError "Error sharing PDF:") ;;;;
         Act.emit (Alert "Error" "No se pudo compartir el PDF"))
  end.
End Sharing.

(** The document [sharePdf] picks for a type. *)
Definition requestedPdf (st : State) (type : pdfType) : option Pdf :=
  match type with
  | ForDistributor => distributorPdf (export st)
  | ForClient => clientPdf (export st)
  end.

Definition closePdfModal (st : State) : State :=
  setExport
    {| showPdfModal := false; distributorPdf := None; clientPdf := None |} st.

(** ** The product editor of the products screen *)

Module ProductsEditor.

(** The product form and the colour being typed. *)
Record ProductForm := {
  name : string;
  description : string;
  distributorPrice : string;
  clientPrice : string;
  colors : list ProductColor.t
}.

Record ColorDraft := {
  newColorName : string;
  newColorCode : string
}.

(** The hooks of [ProductsScreen]: the three that [fetchProducts] sets,
    and those of the modal. *)
Record State := {
  catalog : ProductsScreen.State;
  showModal : bool;
  editingProduct : option Product.t;
  saving : bool;
  form : ProductForm;
  draft : ColorDraft
}.

Definition blankForm : ProductForm :=
  {| name := ""; description := ""; distributorPrice := "";
     clientPrice := ""; colors := [] |}.

Definition blankDraft : ColorDraft :=
  {| newColorName := ""; newColorCode := "" |}.

Definition initialState : State :=
  {| catalog := {| ProductsScreen.products := [];
                   ProductsScreen.loading := true;
                   ProductsScreen.refreshing := false |};
     showModal := false; editingProduct := None; saving := false;
     form := blankForm; draft := blankDraft |}.

Definition setCatalog (c : ProductsScreen.State) (st : State) : State :=
  {| catalog := c; showModal := showModal st;
     editingProduct := editingProduct st; saving := saving st;
     form := form st; draft := draft st |}.

Definition setShowModal (b : bool) (st : State) : State :=
  {| catalog := catalog st; showModal := b;
     editingProduct := editingProduct st; saving := saving st;
     form := form st; draft := draft st |}.

Definition setEditingProduct (p : option Product.t) (st : State) : State :=
  {| catalog := catalog st; showModal := showModal st;
     editingProduct := p; saving := saving st;
     form := form st; draft := draft st |}.

Definition setSaving (b : bool) (st : State) : State :=
  {| catalog := catalog st; showModal := showModal st;
     editingProduct := editingProduct st; saving := b;
     form := form st; draft := draft st |}.

Definition setForm (f : ProductForm) (st : State) : State :=
  {| catalog := catalog st; showModal := showModal st;
     editingProduct := editingProduct st; saving := saving st;
     form := f; draft := draft st |}.

Definition setDraft (d : ColorDraft) (st : State) : State :=
  {| catalog := catalog st; showModal := showModal st;
     editingProduct := editingProduct st; saving := saving st;
     form := form st; draft := d |}.

Definition setColors (cs : list ProductColor.t) (st : State) : State :=
  setForm
    {| name := name (form st); description := description (form st);
       distributorPrice := distributorPrice (form st);
       clientPrice := clientPrice (form st); colors := cs |} st.

Definition setProducts (ps : list Product.t) (st : State) : State :=
  setCatalog (ProductsScreen.setProducts ps (catalog st)) st.
Definition setLoading (b : bool) (st : State) : State :=
  setCatalog (ProductsScreen.setLoading b (catalog st)) st.
Definition setRefreshing (b : bool) (st : State) : State :=
  setCatalog (ProductsScreen.setRefreshing b (catalog st)) st.

Definition openAddModal (st : State) : State :=
  setShowModal true (setForm blankForm (setEditingProduct None st)).

Definition closeModal (st : State) : State :=
  setDraft blankDraft (setEditingProduct None (setShowModal false st)).

Definition addColor (st : State) : list effect * State :=
  if negb (nonempty (JS.trim (newColorName (draft st)))) then
    ([Alert "Error" "Ingresa el nombre del color"], st)
  else
    ([], setDraft blankDraft
           (setColors
              (colors (form st) ++
               [{| ProductColor.name := JS.trim (newColorName (draft st));
                   ProductColor.code :=
                     JS.or_null (JS.trim (newColorCode (draft st))) |}])
              st)).

Definition removeColor (st : State) (index : Z) : State :=
  let newColors := JS.splice1 (colors (form st)) index in
  setColors newColors st.

Section Handlers.
Variable Env : Type.
Variable serve : Env -> request -> Env * option response.
Variable serveWith : Env -> productRequest -> Env * option bool.
Variable BACKEND_URL : string.

(** [fetchProducts] on the hooks of this screen. *)
Definition fetchProducts : M Env State unit :=
  fetchProducts Env serve BACKEND_URL State
    setProducts setLoading setRefreshing.

Definition onRefresh : M Env State unit :=
  bind (update (setRefreshing true)) (fun _ => fetchProducts).

(** [saveProduct], called in the state [st]. The catalog is fetched
    again without being awaited; that fetch sets other hooks than the
    rest of the handler, so it is run in place. *)
Definition saveProduct (st : State) : Act.t Env State unit :=
  if negb (nonempty (JS.trim (name (form st)))) then
    Act.emit (Alert "Error" "El nombre es requerido")
  else
    let distPrice := JS.parseFloat (distributorPrice (form st)) in
    let cliPrice := JS.parseFloat (clientPrice (form st)) in
    if JS.isNaN distPrice || JS.leb distPrice JS.zero then
      Act.emit
        (Alert "Error"
           "El precio de distribuidor debe ser un número válido mayor a 0")
    else if JS.isNaN cliPrice || JS.leb cliPrice JS.zero then
      Act.emit
        (Alert "Error"
           "El precio de cliente debe ser un número válido mayor a 0")
    else
      Act.update (setSaving true) ;;;;
      Act.finally
        (Act.try_catch
           (let productData :=
              {| ProductData.name := JS.trim (name (form st));
                 ProductData.description := JS.trim (description (form st));
                 ProductData.distributor_price := distPrice;
                 ProductData.client_price := cliPrice;
                 ProductData.colors := colors (form st) |} in
            ok <-- match editingProduct st with
                   | Some editing =>
                       Act.fetchWith serveWith
                         {| method := "PUT";
                            url := BACKEND_URL ++ "/api/products/"
                                   ++ Product.id editing;
                            payload := Some productData |}
                   | None =>
                       Act.fetchWith serveWith
                         {| method := "POST";
                            url := BACKEND_URL ++ "/api/products";
                            payload := Some productData |}
                   end ;;
            if ok then
              Act.emit
                (Alert "Éxito"
                   match editingProduct st with
                   | Some _ => "Producto actualizado"
                   | None => "Producto creado"
                   end) ;;;;
              Act.update closeModal ;;;;
              Act.lift fetchProducts
            else Act.throw)
           (Act.emit (ConsoleError "Error saving product:") ;;;;
            Act.emit (Alert "Error" "No se pudo guardar el producto")))
        (Act.update (setSaving false)).

(** [deleteProduct] once the dialog is answered; cancelling does
    nothing. *)
Definition deleteProduct (confirmed : bool) (product : Product.t)
  : Act.t Env State unit :=
  if confirmed then
    Act.try_catch
      (ok <-- Act.fetchWith serveWith
                {| method := "DELETE";
                   url := BACKEND_URL ++ "/api/products/"
                          ++ Product.id product;
                   payload := None |} ;;
       if ok then
         Act.emit (Alert "Éxito" "Producto eliminado") ;;;;
         Act.lift fetchProducts
       else Act.throw)
      (Act.emit (ConsoleError "Error deleting product:") ;;;;
       Act.emit (Alert "Error" "No se pudo eliminar el producto"))
  else Act.ret tt.
End Handlers.

End ProductsEditor.

(** The request [saveProduct] builds from the state it is called in. *)
Definition requestFor (BACKEND_URL : string) (st : ProductsEditor.State)
  : productRequest :=
  let f := ProductsEditor.form st in
  let productData :=
    {| ProductData.name := JS.trim (ProductsEditor.name f);
       ProductData.description := JS.trim (ProductsEditor.description f);
       ProductData.distributor_price :=
         JS.parseFloat (ProductsEditor.distributorPrice f);
       ProductData.client_price := JS.parseFloat (ProductsEditor.clientPrice f);
       ProductData.colors := ProductsEditor.colors f |} in
  match ProductsEditor.editingProduct st with
  | Some editing =>
      {| method := "PUT";
         url := BACKEND_URL ++ "/api/products/" ++ Product.id editing;
         payload := Some productData |}
  | None =>
      {| method := "POST"; url := BACKEND_URL ++ "/api/products";
         payload := Some productData |}
  end.

(** The hooks of the modal: whether it shows, the product edited, the
    form and the colour inputs. *)
Definition modalPart (st : ProductsEditor.State) :=
  (ProductsEditor.showModal st, ProductsEditor.editingProduct st,
   ProductsEditor.form st, ProductsEditor.draft st).

(** ** Scenario environments *)

(** A device on which writing and sharing succeed. *)
Definition writes (e : unit) (fileUri contents : string) : unit * bool :=
  (e, true).
Definition shares (e : unit) (fileUri : string) : unit * bool := (e, true).
Definition can_share (e : unit) : bool := true.

(** A backend that accepts every product. *)
Definition accepts (e : unit) (r : productRequest) : unit * option bool :=
  (e, Some true).

(** The editor with a product typed in. *)
Definition typedProduct (name distributorPrice clientPrice : string)
  : ProductsEditor.State :=
  ProductsEditor.setForm
    {| ProductsEditor.name := name; ProductsEditor.description := "";
       ProductsEditor.distributorPrice := distributorPrice;
       ProductsEditor.clientPrice := clientPrice;
       ProductsEditor.colors := [] |}
    (ProductsEditor.openAddModal ProductsEditor.initialState).

(** ** What the product editor checks *)

(** A form [saveProduct] refuses: no name, or a price that is not a
    number above zero. *)
Definition refused_product (st : ProductsEditor.State) : Prop :=
  let f := ProductsEditor.form st in
  nonempty (JS.trim (ProductsEditor.name f)) = false \/
  JS.isNaN (JS.parseFloat (ProductsEditor.distributorPrice f)) = true \/
  JS.leb (JS.parseFloat (ProductsEditor.distributorPrice f)) JS.zero = true \/
  JS.isNaN (JS.parseFloat (ProductsEditor.clientPrice f)) = true \/
  JS.leb (JS.parseFloat (ProductsEditor.clientPrice f)) JS.zero = true.


(** A colour with a name, and a code that is absent or not empty. *)
Definition named_color (c : ProductColor.t) : Prop :=
  nonempty (ProductColor.name c) = true /\
  ProductColor.code c <> Some "".

(** ** The two revisions of the quote screen *)

(** The state of the quote screen of [index.tsx] with the same
    perspective, products, selection and measurements, and an empty
    quote. *)
Definition plain (st : State) : NoAddons.State :=
  {| NoAddons.isDistributor := isDistributor st;
     NoAddons.products := products st;
     NoAddons.quoteItems := [];
     NoAddons.selectedProduct := selectedProduct (form st);
     NoAddons.width := width (form st);
     NoAddons.height := height (form st) |}.

(** ** Facts about numbers *)

Local Open Scope list_scope.
Local Open Scope Z_scope.

Lemma positive_is_valid_measure (w : JS.number) :
  JS.ltb JS.zero w = true ->
  JS.isNaN w = false /\ JS.leb w JS.zero = false.
Proof.
  destruct w as [s|s| |s m e]; simpl; try discriminate; auto;
    destruct s; simpl; try discriminate; auto.
Qed.

Lemma valid_measure_is_positive (w : JS.number) :
  JS.isNaN w = false -> JS.leb w JS.zero = false ->
  JS.ltb JS.zero w = true.
Proof.
  destruct w as [s|s| |s m e]; simpl; try discriminate; auto;
    destruct s; simpl; try discriminate; auto.
Qed.

Lemma or_else_not_NaN (x : JS.number) :
  JS.isNaN (JS.or_else x JS.zero) = false.
Proof. destruct x; reflexivity. Qed.

Lemma or_else_NaN : JS.or_else JS.NaN JS.zero = JS.zero.
Proof. reflexivity. Qed.

Lemma add_zero_r (x : JS.number) :
  JS.isNaN x = false -> JS.eqb (JS.add x JS.zero) x = true.
Proof.
  destruct x as [s|s| |s m e]; simpl; try discriminate; intros _.
  - destruct s; reflexivity.
  - destruct s; reflexivity.
  - unfold JS.eqb, SFeqb. simpl.
    destruct s; rewrite Z.compare_refl, Pos.compare_cont_refl; reflexivity.
Qed.

Lemma mul_zero_l (s : bool) (y : JS.number) :
  (forall s', y <> S754_infinity s') -> JS.isNaN y = false ->
  exists s', JS.mul (S754_zero s) y = S754_zero s'.
Proof.
  destruct y as [t|t| |t m e]; simpl; intros Hinf Hnan; try discriminate.
  - eauto.
  - destruct (Hinf t); reflexivity.
  - eauto.
Qed.

Lemma mul_zero_r (s : bool) (x : JS.number) :
  (forall s', x <> S754_infinity s') -> JS.isNaN x = false ->
  exists s', JS.mul x (S754_zero s) = S754_zero s'.
Proof.
  destruct x as [t|t| |t m e]; simpl; intros Hinf Hnan; try discriminate.
  - eauto.
  - destruct (Hinf t); reflexivity.
  - eauto.
Qed.

(** *** Rounding never yields [NaN] *)

Lemma shr_1_nonneg (mrs : shr_record) :
  0 <= shr_m mrs -> 0 <= shr_m (shr_1 mrs).
Proof.
  destruct mrs as [m r s]; simpl.
  destruct m as [|p|p]; [simpl; lia | | lia].
  destruct p; simpl; lia.
Qed.

Lemma iter_shr_1_nonneg (n : positive) (mrs : shr_record) :
  0 <= shr_m mrs -> 0 <= shr_m (SpecFloat.iter_pos shr_1 n mrs).
Proof.
  revert mrs. induction n as [n IH|n IH|]; intros mrs H; simpl.
  - apply IH, IH, shr_1_nonneg, H.
  - apply IH, IH, H.
  - apply shr_1_nonneg, H.
Qed.

Lemma shr_fexp_nonneg (m e : Z) (l : location) :
  0 <= m -> 0 <= shr_m (fst (shr_fexp JS.prec JS.emax m e l)).
Proof.
  intros H. unfold shr_fexp, shr.
  assert (0 <= shr_m (shr_record_of_loc m l)) as H0.
  { destruct l as [|[]]; simpl; exact H. }
  destruct (_ - e) as [|n|n]; simpl; auto.
  apply iter_shr_1_nonneg, H0.
Qed.

Lemma round_nearest_even_nonneg (m : Z) (l : location) :
  0 <= m -> 0 <= round_nearest_even m l.
Proof.
  intros H. destruct l as [|[]]; simpl; try lia.
  destruct (Z.even m); lia.
Qed.

Lemma binary_round_aux_not_NaN (s : bool) (m e : Z) (l : location) :
  0 <= m -> binary_round_aux JS.prec JS.emax s m e l <> S754_nan.
Proof.
  intros H. unfold binary_round_aux.
  pose proof (shr_fexp_nonneg m e l H) as H1.
  destruct (shr_fexp JS.prec JS.emax m e l) as [mrs' e'].
  simpl in H1.
  pose proof (shr_fexp_nonneg _ e' loc_Exact
                (round_nearest_even_nonneg _ (loc_of_shr_record mrs') H1))
    as H2.
  destruct (shr_fexp JS.prec JS.emax _ e' loc_Exact) as [mrs'' e''].
  simpl in H2.
  destruct (shr_m mrs'') as [|p|p]; [discriminate| |lia].
  destruct (e'' <=? _); discriminate.
Qed.

Lemma of_decimal_not_NaN (s : bool) (m : positive) (e : Z) :
  JS.of_decimal s m e <> JS.NaN.
Proof.
  unfold JS.of_decimal, JS.NaN.
  destruct e as [|k|k].
  - unfold binary_round. destruct (shl_align _ _ _) as [mz ez].
    apply binary_round_aux_not_NaN. lia.
  - unfold binary_round. destruct (shl_align _ _ _) as [mz ez].
    apply binary_round_aux_not_NaN. lia.
  - unfold SFdiv_core_binary.
    set (m' := match _ with Z0 => _ | Zpos _ => _ | Zneg _ => _ end).
    assert (0 <= m') as Hm'.
    { subst m'. destruct (_ - _) as [|p|p]; try lia.
      apply Z.shiftl_nonneg. lia. }
    pose proof (Z.div_pos m' (Z.pos (10 ^ k)) Hm' ltac:(lia)) as Hq.
    unfold Z.div in Hq.
    destruct (Z.div_eucl m' (Z.pos (10 ^ k))) as [q r]. simpl in Hq.
    apply binary_round_aux_not_NaN, Hq.
Qed.

(** [parseFloat] answers [NaN] for the strings that do not start, after
    white space and a sign, with a decimal literal, and for no other. *)
Lemma parseFloat_NaN_iff (input : string) :
  JS.parseFloat input = JS.NaN <->
  JS.unsigned_literal (fst (JS.take_sign (JS.trim_start input)))
    (snd (JS.take_sign (JS.trim_start input))) = None.
Proof.
  unfold JS.parseFloat.
  destruct (JS.take_sign (JS.trim_start input)) as [s str]; simpl.
  split.
  - destruct (JS.unsigned_literal s str) as [v|] eqn:E; [|reflexivity].
    intros ->. exfalso. revert E. unfold JS.unsigned_literal.
    destruct (String.prefix "Infinity" str); [discriminate|].
    destruct (JS.take_digits str) as [int r].
    assert (forall ds e, JS.decimal_value s ds e <> JS.NaN) as Hdv.
    { intros ds e. unfold JS.decimal_value.
      destruct (JS.digits_value ds); [discriminate|].
      apply of_decimal_not_NaN. }
    destruct r as [|c r'].
    + destruct int; [discriminate|].
      intros E; inversion E as [E']; exact (Hdv _ _ E').
    + destruct (Ascii.eqb_spec c "."%char) as [->|Hc].
      * destruct (JS.take_digits r') as [frac r''].
        destruct int, frac; try discriminate;
          intros E; inversion E as [E']; exact (Hdv _ _ E').
      * assert (match int with
                | [] => None
                | _ :: _ => Some (JS.decimal_value s int
                                    (JS.take_exponent (String c r')))
                end = Some JS.NaN -> False) as Hrest.
        { destruct int; [discriminate|].
          intros E; inversion E as [E']; exact (Hdv _ _ E'). }
        destruct c as [[] [] [] [] [] [] [] []]; try exact Hrest.
        destruct Hc; reflexivity.
  - intros ->. reflexivity.
Qed.

Lemma parseFloat_empty : JS.parseFloat "" = JS.NaN.
Proof. reflexivity. Qed.

Lemma reduce_fold_left {A B} (f : B -> A -> B) (l : list A) (b : B) :
  JS.reduce f b l = fold_left f l b.
Proof. revert b; induction l as [|a l IH]; intros b; simpl; auto. Qed.

Lemma fold_left_map {A B C} (f : B -> C -> B) (g : A -> C) (l : list A) b :
  fold_left (fun acc a => f acc (g a)) l b = fold_left f (map g l) b.
Proof. revert b; induction l as [|a l IH]; intros b; simpl; auto. Qed.

Lemma getTotal_sum (st : State) :
  getTotal st = sum_numbers (map QuoteItem.subtotal (quoteItems st)).
Proof.
  unfold getTotal, sum_numbers.
  rewrite reduce_fold_left.
  apply (fold_left_map JS.add QuoteItem.subtotal).
Qed.

(** ** Line items *)

Lemma addItemToQuote_valid (st : State) (selected : Product.t) :
  selectedProduct (form st) = Some selected ->
  JS.ltb JS.zero (JS.parseFloat (width (form st))) = true ->
  JS.ltb JS.zero (JS.parseFloat (height (form st))) = true ->
  addItemToQuote st =
    ([], setForm initialForm
           (setQuoteItems
              (quoteItems st ++
               [newItem st selected (JS.parseFloat (width (form st)))
                  (JS.parseFloat (height (form st)))]) st)).
Proof.
  intros Hsel Hw Hh. unfold addItemToQuote. rewrite Hsel.
  destruct (positive_is_valid_measure _ Hw) as [-> ->].
  destruct (positive_is_valid_measure _ Hh) as [-> ->].
  reflexivity.
Qed.

Lemma addItemToQuote_invalid (st : State) :
  invalid_measurement st -> rejected st.
Proof.
  unfold invalid_measurement, rejected, addItemToQuote. intros H.
  destruct (selectedProduct (form st)) as [selected|]; [|eauto].
  assert (JS.isNaN (JS.parseFloat (width (form st)))
          || JS.isNaN (JS.parseFloat (height (form st)))
          || JS.leb (JS.parseFloat (width (form st))) JS.zero
          || JS.leb (JS.parseFloat (height (form st))) JS.zero = true) as ->.
  { destruct H as [-> | [-> | [-> | ->]]];
      rewrite ?orb_true_r; reflexivity. }
  eauto.
Qed.

(** C1. A line item created from a positive width [w] and height [h],
    with unit price [p], fascia add-on [f] and installation add-on [i],
    stores [w × h] as its square meters, unrounded, and
    [w × h × p + f + i] as its subtotal. *)
Theorem line_item_area_and_subtotal (st : State) (selected : Product.t) :
  let w := JS.parseFloat (width (form st)) in
  let h := JS.parseFloat (height (form st)) in
  let p := getPrice st selected in
  let f := getFasciaPriceValue st in
  let i := getInstallationPriceValue st in
  selectedProduct (form st) = Some selected ->
  JS.ltb JS.zero w = true ->
  JS.ltb JS.zero h = true ->
  exists item,
    addItemToQuote st =
      ([], setForm initialForm (setQuoteItems (quoteItems st ++ [item]) st)) /\
    QuoteItem.width item = w /\
    QuoteItem.height item = h /\
    QuoteItem.unit_price item = p /\
    QuoteItem.fascia_price item = f /\
    QuoteItem.installation_price item = i /\
    QuoteItem.square_meters item = JS.mul w h /\
    QuoteItem.subtotal item = JS.add (JS.add (JS.mul (JS.mul w h) p) f) i.
Proof.
  intros w h p f i Hsel Hw Hh.
  exists (newItem st selected w h).
  split; [exact (addItemToQuote_valid st selected Hsel Hw Hh)|].
  repeat split; reflexivity.
Qed.

Lemma line_item_area_and_subtotal_witness :
  exists item,
    addItemToQuote (filled false "1.20" "1.50" "150" "200") =
      ([], setForm initialForm
             (setQuoteItems [item] (filled false "1.20" "1.50" "150" "200")))
    /\ JS.toFixed (QuoteItem.square_meters item) 2 = "1.80"
    /\ JS.toFixed (QuoteItem.subtotal item) 2 = "458.00".
Proof.
  destruct (line_item_area_and_subtotal
              (filled false "1.20" "1.50" "150" "200") scenarioProduct)
    as (item & Hadd & _ & _ & _ & _ & _ & Hsqm & Hsub);
    [reflexivity | reflexivity | reflexivity |].
  exists item. split; [exact Hadd|].
  rewrite Hsqm, Hsub. split; vm_compute; reflexivity.
Defined.

(** What is stored is the product itself; two decimals appear only when
    it is printed. *)
Example stored_area_is_not_rounded :
  let st := filled true "1.234" "1.1" "" "" in
  JS.toFixed (calculateSquareMeters st) 2 = "1.36" /\
  calculateSquareMeters st <> JS.parseFloat "1.36" /\
  within (1 # 1000000000) (calculateSquareMeters st) (13574 # 10000) = true.
Proof.
  repeat split; try (vm_compute; reflexivity).
  vm_compute. discriminate.
Qed.

(** C2, as stated, fails: a negative add-on is accepted. With a fascia
    price of -50 the item is added, and its subtotal is negative. *)
Lemma negative_addon_is_accepted :
  let st := filled true "1" "1" "-50" "" in
  negative_addon st /\
  ~ rejected st /\
  exists item,
    quoteItems (snd (addItemToQuote st)) = [item] /\
    QuoteItem.fascia_price item = JS.parseFloat "-50" /\
    JS.toFixed (QuoteItem.subtotal item) 2 = "-5.00".
Proof.
  split; [left; reflexivity|]. split.
  - intros [message H]. vm_compute in H. discriminate.
  - eexists. split; [vm_compute; reflexivity|].
    split; vm_compute; reflexivity.
Qed.

(** C2, amended. When the width or the height is not a number or is not
    positive, the handler raises an error alert and changes nothing: no
    line item is created. The add-ons are not checked. *)
Theorem invalid_measurement_is_rejected (st : State) :
  invalid_measurement st ->
  exists message,
    addItemToQuote st = ([Alert "Error" message], st) /\
    quoteItems (snd (addItemToQuote st)) = quoteItems st /\
    (forall selected, selectedProduct (form st) = Some selected ->
       message = "Ingresa medidas válidas").
Proof.
  intros H. destruct (addItemToQuote_invalid st H) as [message Hm].
  exists message. split; [exact Hm|]. split; [rewrite Hm; reflexivity|].
  intros selected Hsel. revert Hm. unfold addItemToQuote. rewrite Hsel.
  destruct (_ || _ || _ || _); intros Hm; inversion Hm; auto.
Qed.

Lemma invalid_measurement_is_rejected_witness :
  exists message,
    addItemToQuote (filled true "0" "abc" "" "") =
      ([Alert "Error" message], filled true "0" "abc" "" "") /\
    quoteItems (snd (addItemToQuote (filled true "0" "abc" "" ""))) = [] /\
    (forall selected,
       selectedProduct (form (filled true "0" "abc" "" "")) = Some selected ->
       message = "Ingresa medidas válidas").
Proof.
  apply (invalid_measurement_is_rejected (filled true "0" "abc" "" "")).
  right; left; reflexivity.
Defined.

(** ** Perspective *)

(** C5. The unit price of a product is its distributor price when the
    perspective, the [client_type] sent with the quote, is
    ["distributor"], and its client price otherwise; a line item stores
    that price. *)
Theorem unit_price_follows_perspective
  (st : State) (product : Product.t) (w h : JS.number) :
  getPrice st product =
    (if String.eqb (QuoteCreate.client_type (quoteData st)) "distributor"
     then Product.distributor_price product
     else Product.client_price product) /\
  QuoteItem.unit_price (newItem st product w h) = getPrice st product.
Proof.
  split; [|reflexivity].
  unfold getPrice, quoteData; simpl.
  destruct (isDistributor st); reflexivity.
Qed.

Example scenario_unit_prices :
  JS.toFixed (getPrice (filled true "" "" "" "") scenarioProduct) 2 = "45.00" /\
  JS.toFixed (getPrice (filled false "" "" "" "") scenarioProduct) 2 = "60.00".
Proof. split; vm_compute; reflexivity. Qed.

(** ** The list of line items *)

Lemma splice1_in_range {A} (l : list A) (i : nat) :
  (i < length l)%nat ->
  JS.splice1 l (Z.of_nat i) = take i l ++ drop (S i) l.
Proof.
  intros Hi. unfold JS.splice1.
  assert ((Z.of_nat i <? 0) = false) as -> by (apply Z.ltb_ge; lia).
  rewrite Z.min_l by lia.
  rewrite Z.min_l by lia.
  rewrite Nat2Z.id.
  replace (Z.to_nat (Z.of_nat i + 1)) with (S i) by lia.
  reflexivity.
Qed.

Lemma splice1_sublist {A} (l : list A) (start : Z) :
  sublist (JS.splice1 l start) l.
Proof.
  unfold JS.splice1. cbv zeta.
  set (len := Z.of_nat (length l)).
  set (actualStart := if start <? 0 then _ else _).
  set (a := Z.to_nat actualStart). set (b := Z.to_nat _).
  assert (a <= b)%nat as Hab.
  { assert (0 <= len) by (subst len; lia).
    subst a b actualStart. destruct (Z.ltb_spec start 0); lia. }
  rewrite <- (take_drop a l) at 3.
  apply sublist_app; [reflexivity|].
  replace b with (a + (b - a))%nat by lia.
  rewrite <- drop_drop. apply sublist_drop.
Qed.

(** At or beyond the length nothing is removed; a negative index counts
    from the end. The screen passes the index of a rendered item, which
    is in range. *)
Lemma splice1_beyond {A} (l : list A) (start : Z) :
  Z.of_nat (length l) <= start -> JS.splice1 l start = l.
Proof.
  intros H. unfold JS.splice1.
  assert ((start <? 0) = false) as -> by (apply Z.ltb_ge; lia).
  rewrite Z.min_r by lia. rewrite Z.min_r by lia.
  replace (Z.to_nat (_ + (_ - _))) with (length l) by lia.
  rewrite Nat2Z.id, firstn_all, drop_all. apply app_nil_r.
Qed.

Example splice1_from_the_end :
  JS.splice1 ["a"; "b"; "c"] (-1) = ["a"; "b"] /\
  JS.splice1 ["a"; "b"; "c"] (-5) = ["b"; "c"].
Proof. split; reflexivity. Qed.

Lemma addItemToQuote_items (st : State) :
  quoteItems (snd (addItemToQuote st)) = quoteItems st \/
  exists item, quoteItems (snd (addItemToQuote st)) = quoteItems st ++ [item].
Proof.
  unfold addItemToQuote.
  destruct (selectedProduct (form st)); [|left; reflexivity].
  destruct (_ || _ || _ || _); [left; reflexivity|].
  right; eexists; reflexivity.
Qed.

(** C8. The line items are a sequence in entry order: adding an item puts
    it at the end, and removing the item at index [i] deletes that item
    alone, the others keeping their order. *)
Theorem items_keep_entry_order (st : State) (i : nat) :
  (i < length (quoteItems st))%nat ->
  quoteItems (removeItem st (Z.of_nat i)) =
    take i (quoteItems st) ++ drop (S i) (quoteItems st) /\
  length (quoteItems (removeItem st (Z.of_nat i))) =
    (length (quoteItems st) - 1)%nat /\
  (forall j : nat, (j < i)%nat ->
     quoteItems (removeItem st (Z.of_nat i)) !! j = quoteItems st !! j) /\
  (forall j : nat, (i <= j)%nat ->
     quoteItems (removeItem st (Z.of_nat i)) !! j = quoteItems st !! S j) /\
  sublist (quoteItems (removeItem st (Z.of_nat i))) (quoteItems st) /\
  (quoteItems (snd (addItemToQuote st)) = quoteItems st \/
   exists item,
     quoteItems (snd (addItemToQuote st)) = quoteItems st ++ [item]).
Proof.
  intros Hi.
  assert (quoteItems (removeItem st (Z.of_nat i)) =
          take i (quoteItems st) ++ drop (S i) (quoteItems st)) as Heq
    by (apply splice1_in_range; exact Hi).
  split; [exact Heq|]. rewrite Heq.
  split; [rewrite length_app, length_take, length_drop; lia|].
  split.
  { intros j Hj. rewrite lookup_app_l by (rewrite length_take; lia).
    apply lookup_take_lt; exact Hj. }
  split.
  { intros j Hj. rewrite lookup_app_r by (rewrite length_take; lia).
    rewrite length_take, lookup_drop. f_equal. lia. }
  split.
  { rewrite <- Heq. apply splice1_sublist. }
  apply addItemToQuote_items.
Qed.

Lemma items_keep_entry_order_witness :
  quoteItems (removeItem scenarioQuote (Z.of_nat 0)) =
    drop 1 (quoteItems scenarioQuote) /\
  length (quoteItems (removeItem scenarioQuote (Z.of_nat 0))) = 1%nat.
Proof.
  destruct (items_keep_entry_order scenarioQuote 0) as (H1 & H2 & _).
  - vm_compute. lia.
  - split; [exact H1 | exact H2].
Defined.

(** ** The total *)

Lemma getTotal_add (st : State) (item : QuoteItem.t) :
  getTotal (setQuoteItems (quoteItems st ++ [item]) st) =
    JS.add (getTotal st) (QuoteItem.subtotal item).
Proof.
  rewrite !getTotal_sum. simpl. unfold sum_numbers.
  rewrite map_app, fold_left_app. reflexivity.
Qed.

(** C3. After any sequence of events, adds and removes among them, the
    total is the sum of the subtotals of the line items then in the
    quote; with no line item it is zero. *)
Theorem total_is_sum_of_subtotals
  (Store : Type) (serve : Store -> request -> Store * option response)
  (BACKEND_URL : string) (w : World Store State) (evs : list (event Store)) :
  let st := screen (run Store serve BACKEND_URL w evs) in
  getTotal st = sum_numbers (map QuoteItem.subtotal (quoteItems st)) /\
  getTotal (setQuoteItems [] st) = JS.zero /\
  getTotal initialState = JS.zero.
Proof.
  intros st. split; [apply getTotal_sum|]. split; reflexivity.
Qed.

Example scenario_total :
  map (fun item => JS.toFixed (QuoteItem.subtotal item) 2)
    (quoteItems scenarioQuote) = ["81.00"; "458.00"] /\
  JS.toFixed (getTotal scenarioQuote) 2 = "539.00" /\
  JS.toFixed (getTotal (removeItem scenarioQuote 0)) 2 = "458.00".
Proof. repeat split; vm_compute; reflexivity. Qed.

(** ** Handlers and the screen state *)

Section Keeps.
Context {Store S : Type}.
Variable serve : Store -> request -> Store * option response.
Variable inv : S -> Prop.

Lemma keeps_ret {A} (a : A) : keeps (Store := Store) inv (ret a).
Proof. intros w H; exact H. Qed.

Lemma keeps_throw {A} : keeps (Store := Store) (A := A) inv throw.
Proof. intros w H; exact H. Qed.

Lemma keeps_emit (e : effect) : keeps (Store := Store) inv (emit e).
Proof. intros w H; exact H. Qed.

Lemma keeps_fetch (r : request) : keeps inv (fetch serve r).
Proof.
  intros w H. unfold fetch.
  destruct (serve (store w) r) as [store' [resp|]]; exact H.
Qed.

Lemma keeps_update (f : S -> S) :
  (forall s, inv s -> inv (f s)) -> keeps (Store := Store) inv (update f).
Proof. intros Hf w H; apply Hf, H. Qed.

Lemma keeps_bind {A B} (m : M Store S A) (k : A -> M Store S B) :
  keeps inv m -> (forall a, keeps inv (k a)) -> keeps inv (bind m k).
Proof.
  intros Hm Hk w H. unfold bind. specialize (Hm w H).
  destruct (m w) as [w' [a|]]; [apply Hk|]; exact Hm.
Qed.

Lemma keeps_try_catch {A} (body handler : M Store S A) :
  keeps inv body -> keeps inv handler -> keeps inv (try_catch body handler).
Proof.
  intros Hb Hh w H. unfold try_catch. specialize (Hb w H).
  destruct (body w) as [w' [a|]]; [|apply Hh]; exact Hb.
Qed.

Lemma keeps_finally {A} (body : M Store S A) (final : M Store S unit) :
  keeps inv body -> keeps inv final -> keeps inv (finally body final).
Proof.
  intros Hb Hf w H. unfold finally. specialize (Hb w H).
  destruct (body w) as [w' r]. specialize (Hf w' Hb).
  destruct (final w') as [w'' [[]|]]; exact Hf.
Qed.

Lemma keeps_json_products (resp : response) :
  keeps (Store := Store) inv (json_products resp).
Proof. unfold json_products. destruct (body resp); intros w H; exact H. Qed.

Lemma keeps_json_config (resp : response) :
  keeps (Store := Store) inv (json_config resp).
Proof. unfold json_config. destruct (body resp); intros w H; exact H. Qed.
End Keeps.

Create HintDb keeps.
#[local] Hint Resolve keeps_ret keeps_throw keeps_emit keeps_fetch
  keeps_json_products keeps_json_config : keeps.

(** Breaks a handler into its parts, leaving the state updates. *)
Ltac keeps_steps :=
  repeat match goal with
    | |- keeps _ (finally _ _) => apply keeps_finally
    | |- keeps _ (try_catch _ _) => apply keeps_try_catch
    | |- keeps _ (bind _ _) => apply keeps_bind
    | |- keeps _ (update _) => apply keeps_update
    | |- keeps _ (if ?b then _ else _) => destruct b
    | |- keeps _ (match ?x with _ => _ end) => destruct x
    | |- forall _, keeps _ _ => intro
    | |- keeps _ _ => solve [auto with keeps]
    end.

Lemma fetchData_keeps_items
  (Store : Type) (serve : Store -> request -> Store * option response)
  (BACKEND_URL : string) (items : list QuoteItem.t) :
  keeps (fun st => quoteItems st = items) (fetchData Store serve BACKEND_URL).
Proof. unfold fetchData. keeps_steps; intros st H; exact H. Qed.

Lemma onRefresh_keeps_items
  (Store : Type) (serve : Store -> request -> Store * option response)
  (BACKEND_URL : string) (items : list QuoteItem.t) :
  keeps (fun st => quoteItems st = items) (onRefresh Store serve BACKEND_URL).
Proof.
  unfold onRefresh. apply keeps_bind; [apply keeps_update; auto|].
  intros _. apply fetchData_keeps_items.
Qed.

Lemma saveAndExportPDF_keeps_subset
  (Store : Type) (serve : Store -> request -> Store * option response)
  (BACKEND_URL : string) (st : State) (items : list QuoteItem.t) :
  keeps (fun st' => quoteItems st' ⊆ items)
    (saveAndExportPDF Store serve BACKEND_URL st).
Proof.
  unfold saveAndExportPDF. keeps_steps; intros st' H; try exact H.
  simpl. apply list_subseteq_nil.
Qed.

(** ** Saving *)

(** C6. Saving a quote without line items fails with an error alert and
    writes nothing: no request is sent, and the screen and the store stay
    as they were. *)
Theorem empty_quote_is_not_saved
  (Store : Type) (serve : Store -> request -> Store * option response)
  (BACKEND_URL : string) (w : World Store State) :
  quoteItems (screen w) = [] ->
  saveAndExportPDF Store serve BACKEND_URL (screen w) w =
    ({| screen := screen w; store := store w;
        trace := trace w ++
          [Alert "Error" "Agrega al menos un producto a la cotización"] |},
     Returned tt) /\
  (forall r,
     Fetch r ∉ effects_of (saveAndExportPDF Store serve BACKEND_URL (screen w)) w).
Proof.
  intros Hempty.
  assert (saveAndExportPDF Store serve BACKEND_URL (screen w) w =
    ({| screen := screen w; store := store w;
        trace := trace w ++
          [Alert "Error" "Agrega al menos un producto a la cotización"] |},
     Returned tt)) as Heq.
  { unfold saveAndExportPDF. rewrite Hempty. reflexivity. }
  split; [exact Heq|].
  intros r. unfold effects_of. rewrite Heq. simpl.
  rewrite drop_app_length. intros Hin.
  apply list_elem_of_singleton in Hin. discriminate.
Qed.

Lemma empty_quote_is_not_saved_witness :
  let w := {| screen := initialState; store := tt; trace := [] |} in
  saveAndExportPDF unit offline "" initialState w =
    ({| screen := initialState; store := tt;
        trace :=
          [Alert "Error" "Agrega al menos un producto a la cotización"] |},
     Returned tt).
Proof.
  intros w.
  exact (proj1 (empty_quote_is_not_saved unit offline "" w eq_refl)).
Defined.

(** With a line item the request is sent. *)
Example nonempty_quote_is_sent :
  let w := {| screen := scenarioQuote; store := tt; trace := [] |} in
  head (effects_of (saveAndExportPDF unit offline "" scenarioQuote) w) =
    Some (Fetch (POST "/api/quotes" (Some (quoteData scenarioQuote)))).
Proof. reflexivity. Qed.

(** ** Snapshots *)

Lemma step_keeps_items
  (Store : Type) (serve : Store -> request -> Store * option response)
  (BACKEND_URL : string) (w : World Store State) (ev : event Store) :
  edits_items ev = false ->
  quoteItems (screen (step Store serve BACKEND_URL w ev)) =
    quoteItems (screen w).
Proof.
  destruct ev; simpl; try discriminate; intros _; try reflexivity.
  - apply (fetchData_keeps_items Store serve BACKEND_URL
             (quoteItems (screen w)) w eq_refl).
  - apply (onRefresh_keeps_items Store serve BACKEND_URL
             (quoteItems (screen w)) w eq_refl).
Qed.

Lemma run_keeps_items
  (Store : Type) (serve : Store -> request -> Store * option response)
  (BACKEND_URL : string) (evs : list (event Store)) (w : World Store State) :
  forallb (fun ev => negb (edits_items ev)) evs = true ->
  quoteItems (screen (run Store serve BACKEND_URL w evs)) =
    quoteItems (screen w).
Proof.
  revert w. induction evs as [|ev evs IH]; intros w H; [reflexivity|].
  simpl in H. apply andb_true_iff in H as [Hev Hevs].
  apply negb_true_iff in Hev.
  unfold run in *. simpl. rewrite IH by exact Hevs.
  apply step_keeps_items, Hev.
Qed.

Lemma step_items_origin
  (Store : Type) (serve : Store -> request -> Store * option response)
  (BACKEND_URL : string) (w : World Store State) (ev : event Store)
  (item : QuoteItem.t) :
  item ∈ quoteItems (screen (step Store serve BACKEND_URL w ev)) ->
  item ∈ quoteItems (screen w) \/
  ev = PressAdd /\
  exists selected,
    selectedProduct (form (screen w)) = Some selected /\
    item = newItem (screen w) selected
             (JS.parseFloat (width (form (screen w))))
             (JS.parseFloat (height (form (screen w)))).
Proof.
  destruct (edits_items ev) eqn:Hev.
  - destruct ev; try discriminate; simpl.
    + unfold addItemToQuote.
      destruct (selectedProduct (form (screen w))) as [selected|];
        [|simpl; auto].
      destruct (_ || _ || _ || _); simpl; [auto|].
      intros Hin. apply elem_of_app in Hin as [Hin|Hin]; [auto|].
      apply list_elem_of_singleton in Hin. right. eauto.
    + intros Hin. left.
      eapply sublist_subseteq; [apply splice1_sublist | exact Hin].
    + destruct confirmed; simpl; [|auto].
      intros Hin. apply elem_of_nil in Hin. destruct Hin.
    + intros Hin. left.
      exact (saveAndExportPDF_keeps_subset Store serve BACKEND_URL (screen w)
               (quoteItems (screen w)) w (reflexivity _) item Hin).
  - rewrite step_keeps_items by exact Hev. auto.
Qed.

(** The prices of the items already in the quote do not follow the
    perspective either: after the switch to the client perspective the
    item added before keeps the distributor price. *)
Example perspective_change_keeps_item_prices :
  let st := snd (addItemToQuote (filled true "1.20" "1.50" "" "")) in
  let st' := setIsDistributor false st in
  map QuoteItem.unit_price (quoteItems st') = [JS.of_Z 45] /\
  QuoteCreate.client_type (quoteData st') = "client".
Proof. split; reflexivity. Qed.

(** C7. Line items are snapshots. Whatever happens to the catalog after
    an item was created (prices edited, products deleted, the catalog
    fetched again) and whatever is done to the form, the items in the
    quote stay as they are, with their product name, unit price and
    subtotal; an event only ever removes items or appends the one built
    from the form. *)
Theorem line_items_are_snapshots
  (Store : Type) (serve : Store -> request -> Store * option response)
  (BACKEND_URL : string) (w : World Store State) :
  (forall evs : list (event Store),
     forallb (fun ev => negb (edits_items ev)) evs = true ->
     quoteItems (screen (run Store serve BACKEND_URL w evs)) =
       quoteItems (screen w)) /\
  (forall catalog : list Product.t,
     quoteItems (setProducts catalog (screen w)) = quoteItems (screen w)) /\
  (forall (ev : event Store) (item : QuoteItem.t),
     item ∈ quoteItems (screen (step Store serve BACKEND_URL w ev)) ->
     item ∈ quoteItems (screen w) \/
     ev = PressAdd /\
     exists selected,
       selectedProduct (form (screen w)) = Some selected /\
       item = newItem (screen w) selected
                (JS.parseFloat (width (form (screen w))))
                (JS.parseFloat (height (form (screen w))))).
Proof.
  split; [|split].
  - intros evs. apply run_keeps_items.
  - reflexivity.
  - apply step_items_origin.
Qed.

Lemma line_items_are_snapshots_witness :
  let w := {| screen := scenarioQuote; store := [scenarioProduct];
              trace := [] |} in
  let serve := SpecBackend.serve [] "" in
  let evs := [CatalogEdit (fun _ => []); PullRefresh; EditForm initialForm] in
  let w' := run _ serve "" w evs in
  store w' = [] /\
  products (screen w') = [] /\
  quoteItems (screen w') = quoteItems scenarioQuote.
Proof.
  intros w serve evs w'.
  split; [reflexivity|]. split; [reflexivity|].
  exact (proj1 (line_items_are_snapshots _ serve "" w) evs eq_refl).
Defined.

(** ** Seeding the catalog *)

(** Runs a handler on a world, splitting on every answer of the backend. *)
Ltac run_handler serve :=
  unfold effects_of, finally, try_catch, bind, fetch, json_products,
    json_config, update, emit, ret, throw; simpl;
  repeat match goal with
    | |- context [serve ?s ?r] =>
        let E := fresh "E" in
        destruct (serve s r) as [? [[[] []]|]] eqn:E; simpl
    | |- context [(length ?l =? 0)%nat] => is_var l; destruct l; simpl
    end.

Ltac only_new_effects :=
  rewrite <- ?app_assoc; rewrite drop_app_length; simpl;
  rewrite ?elem_of_cons, ?elem_of_nil.

Lemma fetchData_seeds_only_when_empty
  (Store : Type) (serve : Store -> request -> Store * option response)
  (BACKEND_URL : string) (w : World Store State) :
  Fetch (POST (BACKEND_URL ++ "/api/products/seed") None)
    ∈ effects_of (fetchData Store serve BACKEND_URL) w ->
  exists store',
    serve (store w) (GET (BACKEND_URL ++ "/api/products")) =
      (store', Some {| ok := true; body := JProducts [] |}).
Proof.
  unfold fetchData. run_handler serve; only_new_effects; intros H;
    try (eexists; reflexivity);
    exfalso; intuition discriminate.
Qed.

Lemma fetchProducts_seeds_only_when_empty
  (Store : Type) (serve : Store -> request -> Store * option response)
  (BACKEND_URL : string) (w : World Store ProductsScreen.State) :
  Fetch (POST (BACKEND_URL ++ "/api/products/seed") None)
    ∈ effects_of (ProductsScreen.fetchProducts Store serve BACKEND_URL) w ->
  exists store',
    serve (store w) (GET (BACKEND_URL ++ "/api/products")) =
      (store', Some {| ok := true; body := JProducts [] |}).
Proof.
  unfold ProductsScreen.fetchProducts, fetchProducts.
  run_handler serve; only_new_effects; intros H;
    try (eexists; reflexivity);
    exfalso; intuition discriminate.
Qed.

Lemma seed_twice (initial_catalog catalog : list Product.t) :
  SpecBackend.seed initial_catalog (SpecBackend.seed initial_catalog catalog) =
    SpecBackend.seed initial_catalog catalog.
Proof.
  destruct catalog as [|p catalog]; [|reflexivity].
  simpl. destruct initial_catalog; reflexivity.
Qed.

(** C9. Seeding is idempotent: it puts the fixed initial catalog in place
    of an empty catalog and leaves any other catalog as it is, so seeding
    twice gives what seeding once gives and never duplicates an entry;
    and the screens ask for it only when the list of products they
    fetched is empty. *)
Theorem seed_is_idempotent (initial_catalog catalog : list Product.t) :
  NoDup (map Product.id initial_catalog) ->
  NoDup (map Product.id catalog) ->
  let seed := SpecBackend.seed initial_catalog in
  seed (seed catalog) = seed catalog /\
  seed [] = initial_catalog /\
  (catalog <> [] -> seed catalog = catalog) /\
  NoDup (map Product.id (seed catalog)) /\
  NoDup (map Product.id (seed (seed catalog))) /\
  (forall (Store : Type) (serve : Store -> request -> Store * option response)
          (BACKEND_URL : string) (w : World Store State),
     Fetch (POST (BACKEND_URL ++ "/api/products/seed") None)
       ∈ effects_of (fetchData Store serve BACKEND_URL) w ->
     exists store',
       serve (store w) (GET (BACKEND_URL ++ "/api/products")) =
         (store', Some {| ok := true; body := JProducts [] |})) /\
  (forall (Store : Type) (serve : Store -> request -> Store * option response)
          (BACKEND_URL : string) (w : World Store ProductsScreen.State),
     Fetch (POST (BACKEND_URL ++ "/api/products/seed") None)
       ∈ effects_of (ProductsScreen.fetchProducts Store serve BACKEND_URL) w ->
     exists store',
       serve (store w) (GET (BACKEND_URL ++ "/api/products")) =
         (store', Some {| ok := true; body := JProducts [] |})).
Proof.
  intros Hinit Hcat seed.
  assert (NoDup (map Product.id (seed catalog))) as Hseeded.
  { subst seed. destruct catalog; simpl; assumption. }
  split; [apply seed_twice|].
  split; [reflexivity|].
  split; [destruct catalog; [congruence | reflexivity]|].
  split; [exact Hseeded|].
  split; [subst seed; rewrite seed_twice; exact Hseeded|].
  split.
  - apply fetchData_seeds_only_when_empty.
  - apply fetchProducts_seeds_only_when_empty.
Qed.

Lemma seed_is_idempotent_witness :
  let initial := [scenarioProduct; scenarioBlackout] in
  SpecBackend.seed initial (SpecBackend.seed initial []) = initial /\
  NoDup (map Product.id (SpecBackend.seed initial (SpecBackend.seed initial []))).
Proof.
  intros initial.
  assert (NoDup (map Product.id initial)) as Hinit.
  { apply (NoDup_cons_2 "prod-1" ["prod-2"]).
    - intros Hin. apply list_elem_of_singleton in Hin. discriminate.
    - apply NoDup_singleton. }
  destruct (seed_is_idempotent initial [] Hinit (NoDup_nil_2 (A := string)))
    as (H1 & H2 & _ & _ & H5 & _).
  split; [rewrite H1; exact H2 | exact H5].
Defined.

(** Against the catalog of the specification, mounting the quote screen
    twice on an empty catalog seeds it once. *)
Example mounting_twice_seeds_once :
  let initial := [scenarioProduct; scenarioBlackout] in
  let serve := SpecBackend.serve initial "" in
  let w := {| screen := initialState; store := []; trace := [] |} in
  let w' := run _ serve "" w [Mount; Mount] in
  store w' = initial /\
  products (screen w') = initial /\
  trace w' =
    [Fetch (GET "/api/products"); Fetch (POST "/api/products/seed" None);
     Fetch (GET "/api/products"); Fetch (GET "/api/config");
     Fetch (GET "/api/products"); Fetch (GET "/api/config")].
Proof. repeat split. Qed.

(** ** The scenario of the specification *)

(** C4. For a width of 1.20, a height of 1.50, the distributor
    perspective with a distributor price of 45.00 and no add-ons, the line
    item has 1.80 square meters and a subtotal of 81.00: each stored value
    is within a relative error of 1e-9 of that number, the subtotal is
    within 1e-9 of the exact product of the stored width, height and
    price, and the screen prints them as 1.80 and 81.00. *)
Theorem scenario_distributor_item :
  let st := filled true "1.20" "1.50" "" "" in
  exists item,
    addItemToQuote st =
      ([], setForm initialForm (setQuoteItems [item] st)) /\
    QuoteItem.unit_price item = JS.of_Z 45 /\
    within tolerance (QuoteItem.square_meters item) (180 # 100) = true /\
    within tolerance (QuoteItem.subtotal item) (8100 # 100) = true /\
    (exists w h p,
       exact (QuoteItem.width item) = Some w /\
       exact (QuoteItem.height item) = Some h /\
       exact (QuoteItem.unit_price item) = Some p /\
       within tolerance (QuoteItem.subtotal item) (w * h * p) = true) /\
    JS.toFixed (QuoteItem.square_meters item) 2 = "1.80" /\
    JS.toFixed (QuoteItem.subtotal item) 2 = "81.00".
Proof.
  intros st.
  exists (newItem st scenarioProduct (JS.parseFloat "1.20")
            (JS.parseFloat "1.50")).
  split; [reflexivity|].
  split; [reflexivity|].
  split; [vm_compute; reflexivity|].
  split; [vm_compute; reflexivity|].
  split.
  - do 3 eexists.
    split; [vm_compute; reflexivity|].
    split; [vm_compute; reflexivity|].
    split; [vm_compute; reflexivity|].
    vm_compute; reflexivity.
  - split; vm_compute; reflexivity.
Qed.

(** The stored doubles of the scenario: the products are rounded at each
    step, which leaves them one unit in the last place below the doubles
    nearest to 1.8 and to 81. *)
Example scenario_stored_doubles :
  let st := filled true "1.20" "1.50" "" "" in
  map QuoteItem.square_meters (quoteItems (snd (addItemToQuote st))) =
    [S754_finite false 8106479329266892 (-52)] /\
  JS.parseFloat "1.80" = S754_finite false 8106479329266893 (-52) /\
  map QuoteItem.subtotal (quoteItems (snd (addItemToQuote st))) =
    [S754_finite false 5699868278390783 (-46)] /\
  JS.of_Z 81 = S754_finite false 5699868278390784 (-46).
Proof. repeat split; vm_compute; reflexivity. Qed.

(** ** Inputs that are not numbers *)

Lemma unparseable_NaN (s : string) :
  unparseable s -> JS.parseFloat s = JS.NaN.
Proof. intros [-> | H]; [reflexivity | exact H]. Qed.

Lemma or_else_not_infinite (x : JS.number) :
  not_infinite x -> not_infinite (JS.or_else x JS.zero).
Proof.
  intros H s. destruct x as [t|t| |t m e]; simpl; try discriminate.
  apply H.
Qed.

Lemma toFixed_zero (s : bool) : JS.toFixed (S754_zero s) 2 = "0.00".
Proof. reflexivity. Qed.

Lemma area_zero (st : State) :
  unparseable (width (form st)) \/ unparseable (height (form st)) ->
  not_infinite (JS.parseFloat (width (form st))) ->
  not_infinite (JS.parseFloat (height (form st))) ->
  exists s, calculateSquareMeters st = S754_zero s.
Proof.
  intros Hun Hw Hh. unfold calculateSquareMeters.
  destruct Hun as [Hun | Hun]; rewrite (unparseable_NaN _ Hun), or_else_NaN.
  - apply mul_zero_l; [apply or_else_not_infinite, Hh|apply or_else_not_NaN].
  - apply mul_zero_r; [apply or_else_not_infinite, Hw|apply or_else_not_NaN].
Qed.

(** C10, as stated, fails: with an empty width and the height
    ["Infinity"], which [parseFloat] reads as a number, the area is
    [NaN] and is shown as such. *)
Lemma area_of_empty_by_infinity_is_NaN :
  let st := filled true "" "Infinity" "" "" in
  unparseable (width (form st)) /\
  JS.parseFloat (height (form st)) = JS.Infinity /\
  calculateSquareMeters st = JS.NaN /\
  JS.eqb (calculateSquareMeters st) JS.zero = false /\
  areaLabel st = "NaN m²".
Proof. repeat split; try reflexivity. left; reflexivity. Qed.

(** C10, amended. The parsers are total. When the width or the height is
    empty or not a number, and neither of them reads as an infinity, the
    computed area is zero and is shown as 0.00; an empty or unparseable
    fascia or installation field counts as zero, and adding zero leaves
    a subtotal the same number. *)
Theorem unparseable_fields_count_as_zero (st : State) :
  (unparseable (width (form st)) \/ unparseable (height (form st)) ->
   not_infinite (JS.parseFloat (width (form st))) ->
   not_infinite (JS.parseFloat (height (form st))) ->
   JS.eqb (calculateSquareMeters st) JS.zero = true /\
   areaLabel st = "0.00 m²") /\
  (unparseable (fasciaPrice (form st)) -> getFasciaPriceValue st = JS.zero) /\
  (unparseable (installationPrice (form st)) ->
   getInstallationPriceValue st = JS.zero) /\
  (forall x, JS.isNaN x = false -> JS.eqb (JS.add x JS.zero) x = true).
Proof.
  split; [|split; [|split]].
  - intros Hun Hw Hh.
    destruct (area_zero st Hun Hw Hh) as [s Hs].
    unfold areaLabel. rewrite Hs. split; reflexivity.
  - intros Hun. unfold getFasciaPriceValue.
    rewrite (unparseable_NaN _ Hun). reflexivity.
  - intros Hun. unfold getInstallationPriceValue.
    rewrite (unparseable_NaN _ Hun). reflexivity.
  - apply add_zero_r.
Qed.

Lemma unparseable_fields_count_as_zero_witness :
  let st := filled true "abc" "-2.5" "" "n/a" in
  calculateSquareMeters st = S754_zero true /\
  areaLabel st = "0.00 m²" /\
  getFasciaPriceValue st = JS.zero /\
  getInstallationPriceValue st = JS.zero.
Proof.
  intros st.
  destruct (unparseable_fields_count_as_zero st) as (Harea & Hf & Hi & _).
  destruct Harea as [_ Hlabel].
  - left; right; reflexivity.
  - intros s; vm_compute; discriminate.
  - intros s; vm_compute; discriminate.
  - split; [reflexivity|]. split; [exact Hlabel|].
    split; [apply Hf; left; reflexivity | apply Hi; right; reflexivity].
Defined.

(** ** The screen without add-ons

    The pricing handlers of [index.tsx] guard, price and total as the
    ones above do; the subtotal there is the product alone. *)

Lemma no_addons_item (st : NoAddons.State) (selected : Product.t) :
  let w := JS.parseFloat (NoAddons.width st) in
  let h := JS.parseFloat (NoAddons.height st) in
  NoAddons.selectedProduct st = Some selected ->
  JS.ltb JS.zero w = true ->
  JS.ltb JS.zero h = true ->
  exists item st',
    NoAddons.addItemToQuote st = ([], st') /\
    NoAddons.quoteItems st' = NoAddons.quoteItems st ++ [item] /\
    NoAddons.QuoteItem.square_meters item = JS.mul w h /\
    NoAddons.QuoteItem.unit_price item = NoAddons.getPrice st selected /\
    NoAddons.QuoteItem.subtotal item =
      JS.mul (JS.mul w h) (NoAddons.getPrice st selected).
Proof.
  intros w h Hsel Hw Hh. unfold NoAddons.addItemToQuote. rewrite Hsel.
  fold w h.
  destruct (positive_is_valid_measure _ Hw) as [-> ->].
  destruct (positive_is_valid_measure _ Hh) as [-> ->].
  simpl. do 2 eexists. split; [reflexivity|]. repeat split.
Qed.

Lemma no_addons_invalid_measurement (st : NoAddons.State) :
  let w := JS.parseFloat (NoAddons.width st) in
  let h := JS.parseFloat (NoAddons.height st) in
  JS.isNaN w = true \/ JS.isNaN h = true \/
  JS.leb w JS.zero = true \/ JS.leb h JS.zero = true ->
  exists message,
    NoAddons.addItemToQuote st = ([Alert "Error" message], st).
Proof.
  intros w h H. unfold NoAddons.addItemToQuote. fold w h.
  destruct (NoAddons.selectedProduct st); [|eauto].
  assert (JS.isNaN w || JS.isNaN h || JS.leb w JS.zero || JS.leb h JS.zero
          = true) as ->.
  { destruct H as [-> | [-> | [-> | ->]]];
      rewrite ?orb_true_r; reflexivity. }
  eauto.
Qed.

Lemma no_addons_total (st : NoAddons.State) :
  NoAddons.getTotal st =
    sum_numbers (map NoAddons.QuoteItem.subtotal (NoAddons.quoteItems st)).
Proof.
  unfold NoAddons.getTotal, sum_numbers. rewrite reduce_fold_left.
  apply (fold_left_map JS.add NoAddons.QuoteItem.subtotal).
Qed.

(** With both add-on fields empty the two screens price an item alike: the
    subtotals are the same number. *)
Lemma empty_addons_agree (st : State) (selected : Product.t) (w h : JS.number) :
  unparseable (fasciaPrice (form st)) ->
  unparseable (installationPrice (form st)) ->
  JS.isNaN (JS.mul (JS.mul w h) (getPrice st selected)) = false ->
  JS.eqb (QuoteItem.subtotal (newItem st selected w h))
         (JS.mul (JS.mul w h) (getPrice st selected)) = true.
Proof.
  intros Hf Hi Hnan. simpl.
  unfold getFasciaPriceValue, getInstallationPriceValue.
  rewrite (unparseable_NaN _ Hf), (unparseable_NaN _ Hi), !or_else_NaN.
  destruct (JS.mul (JS.mul w h) (getPrice st selected)) as [s|s| |s m e];
    try discriminate; try (destruct s; reflexivity).
  apply (add_zero_r (S754_finite s m e)). reflexivity.
Qed.

(** * Further properties of the screens *)

(** ** Rounding keeps the sign *)

Lemma binary_round_aux_sign (s : bool) (m e : Z) (l : location) :
  0 <= m ->
  match binary_round_aux JS.prec JS.emax s m e l with
  | S754_zero s' | S754_infinity s' | S754_finite s' _ _ => s' = s
  | S754_nan => False
  end.
Proof.
  intros H. unfold binary_round_aux.
  pose proof (shr_fexp_nonneg m e l H) as H1.
  destruct (shr_fexp JS.prec JS.emax m e l) as [mrs' e'].
  simpl in H1.
  pose proof (shr_fexp_nonneg _ e' loc_Exact
                (round_nearest_even_nonneg _ (loc_of_shr_record mrs') H1))
    as H2.
  destruct (shr_fexp JS.prec JS.emax _ e' loc_Exact) as [mrs'' e''].
  simpl in H2.
  destruct (shr_m mrs'') as [|p|p]; [reflexivity| |lia].
  destruct (e'' <=? _); reflexivity.
Qed.

Lemma mul_positive (w h : JS.number) :
  JS.ltb JS.zero w = true -> JS.ltb JS.zero h = true ->
  JS.leb JS.zero (JS.mul w h) = true.
Proof.
  destruct w as [s|[]| |[] m e]; try discriminate;
    destruct h as [t|[]| |[] n f]; try discriminate; intros _ _;
    try reflexivity.
  unfold JS.mul, SFmul.
  pose proof (binary_round_aux_sign (xorb false false) (Z.pos (m * n))
                (e + f) loc_Exact ltac:(lia)) as H.
  destruct (binary_round_aux _ _ _ _ _ _) as [s|s| |s p g];
    simpl in H; subst; try reflexivity; destruct H.
Qed.

Lemma positive_is_truthy (w : JS.number) :
  JS.ltb JS.zero w = true -> JS.or_else w JS.zero = w.
Proof. destruct w as [s|s| |s m e]; try discriminate; reflexivity. Qed.

Lemma positive_has_text (s : string) :
  JS.ltb JS.zero (JS.parseFloat s) = true -> nonempty s = true.
Proof. destruct s; [discriminate | reflexivity]. Qed.

(** ** Adding and removing line items *)

Lemma newItem_well_priced (st : State) (selected : Product.t) (w h : JS.number) :
  JS.ltb JS.zero w = true -> JS.ltb JS.zero h = true ->
  well_priced (newItem st selected w h).
Proof.
  intros Hw Hh. unfold well_priced; simpl.
  split; [exact Hw|]. split; [exact Hh|]. split; [reflexivity|].
  split; [apply mul_positive; assumption|].
  split; [apply or_else_not_NaN|]. split; [apply or_else_not_NaN|].
  reflexivity.
Qed.

Lemma addItemToQuote_new_item (st : State) (item : QuoteItem.t) :
  item ∈ quoteItems (snd (addItemToQuote st)) ->
  item ∈ quoteItems st \/ well_priced item.
Proof.
  unfold addItemToQuote.
  destruct (selectedProduct (form st)) as [selected|]; [|simpl; auto].
  destruct (JS.isNaN (JS.parseFloat (width (form st)))) eqn:Hnw;
    [simpl; auto|].
  destruct (JS.isNaN (JS.parseFloat (height (form st)))) eqn:Hnh;
    [simpl; auto|].
  destruct (JS.leb (JS.parseFloat (width (form st))) JS.zero) eqn:Hlw;
    [simpl; auto|].
  destruct (JS.leb (JS.parseFloat (height (form st))) JS.zero) eqn:Hlh;
    [simpl; auto|].
  simpl. intros Hin. apply elem_of_app in Hin as [Hin|Hin]; [auto|].
  apply list_elem_of_singleton in Hin. subst item. right.
  apply newItem_well_priced; apply valid_measure_is_positive; assumption.
Qed.

(** X1. When Add succeeds, the item it appends has the area shown under
    the measurement fields and the subtotal shown in the preview. *)
Theorem preview_is_what_gets_added (st : State) (selected : Product.t) :
  selectedProduct (form st) = Some selected ->
  JS.ltb JS.zero (JS.parseFloat (width (form st))) = true ->
  JS.ltb JS.zero (JS.parseFloat (height (form st))) = true ->
  exists item,
    quoteItems (snd (addItemToQuote st)) = quoteItems st ++ [item] /\
    QuoteItem.square_meters item = calculateSquareMeters st /\
    areaLabel st =
      (JS.toFixed (QuoteItem.square_meters item) 2 ++ " m²")%string /\
    subtotalPreview st =
      Some ("$" ++ JS.toFixed (QuoteItem.subtotal item) 2)%string.
Proof.
  intros Hsel Hw Hh.
  exists (newItem st selected (JS.parseFloat (width (form st)))
            (JS.parseFloat (height (form st)))).
  rewrite (addItemToQuote_valid st selected Hsel Hw Hh).
  assert (calculateSquareMeters st =
          JS.mul (JS.parseFloat (width (form st)))
                 (JS.parseFloat (height (form st)))) as Harea.
  { unfold calculateSquareMeters.
    rewrite (positive_is_truthy _ Hw), (positive_is_truthy _ Hh).
    reflexivity. }
  split; [reflexivity|]. split; [simpl; symmetry; exact Harea|].
  split; [unfold areaLabel; simpl; rewrite Harea; reflexivity|].
  unfold subtotalPreview. rewrite Hsel.
  rewrite (positive_has_text _ Hw), (positive_has_text _ Hh). simpl.
  rewrite Harea. reflexivity.
Qed.

Lemma preview_is_what_gets_added_witness :
  subtotalPreview (filled false "1.20" "1.50" "150" "200") = Some "$458.00".
Proof.
  destruct (preview_is_what_gets_added
              (filled false "1.20" "1.50" "150" "200") scenarioProduct)
    as (item & Hitems & _ & _ & Hpreview);
    [reflexivity | reflexivity | reflexivity |].
  rewrite Hpreview. f_equal.
  assert (item = newItem (filled false "1.20" "1.50" "150" "200")
                   scenarioProduct (JS.parseFloat "1.20")
                   (JS.parseFloat "1.50")) as ->.
  { apply (app_inj_tail []) in Hitems. symmetry. apply Hitems. }
  vm_compute. reflexivity.
Defined.

(** X2. Every line item in the quote keeps what it was created with:
    positive width and height, their product as area, add-ons that are
    numbers, and a subtotal that is area × unit price + fascia +
    installation of its own fields. No sequence of events breaks it. *)
Theorem items_stay_well_priced
  (Store : Type) (serve : Store -> request -> Store * option response)
  (BACKEND_URL : string) (evs : list (event Store)) (w : World Store State) :
  Forall well_priced (quoteItems (screen w)) ->
  Forall well_priced (quoteItems (screen (run Store serve BACKEND_URL w evs))).
Proof.
  revert w. induction evs as [|ev evs IH]; intros w H; [exact H|].
  unfold run in *. simpl. apply IH.
  rewrite Forall_forall in *. intros item Hin.
  destruct (decide (edits_items ev = true)) as [Hev|Hev].
  - destruct ev; try discriminate.
    + simpl in Hin. destruct (addItemToQuote (screen w)) as [effects st'] eqn:E.
      simpl in Hin.
      destruct (addItemToQuote_new_item (screen w) item) as [Hold|Hnew];
        [rewrite E; exact Hin | auto | exact Hnew].
    + destruct (step_items_origin Store serve BACKEND_URL w _ item Hin)
        as [Hold|[Habs _]]; [auto | discriminate].
    + destruct (step_items_origin Store serve BACKEND_URL w _ item Hin)
        as [Hold|[Habs _]]; [auto | discriminate].
    + destruct (step_items_origin Store serve BACKEND_URL w _ item Hin)
        as [Hold|[Habs _]]; [auto | discriminate].
  - apply not_true_is_false in Hev.
    rewrite step_keeps_items in Hin by exact Hev. auto.
Qed.

Lemma items_stay_well_priced_witness :
  Forall well_priced
    (quoteItems
       (screen
          (run unit offline ""
             {| screen := filled true "1.20" "1.50" "" "-3"; store := tt;
                trace := [] |}
             [PressAdd; SetPerspective false; PullRefresh; PressSave]))).
Proof.
  apply items_stay_well_priced. apply Forall_nil_2.
Defined.

(** X3. For a positive width and height the stored area is a number that
    is not negative; it is not always positive: the product of two small
    measurements rounds to zero, and of two large ones to infinity. *)
Theorem area_is_never_negative :
  (forall w h,
     JS.ltb JS.zero w = true -> JS.ltb JS.zero h = true ->
     JS.leb JS.zero (JS.mul w h) = true /\ JS.isNaN (JS.mul w h) = false) /\
  (exists st item,
     quoteItems (snd (addItemToQuote st)) = [item] /\
     QuoteItem.square_meters item = JS.zero) /\
  (exists st item,
     quoteItems (snd (addItemToQuote st)) = [item] /\
     QuoteItem.square_meters item = JS.Infinity).
Proof.
  split; [|split].
  - intros w h Hw Hh. pose proof (mul_positive w h Hw Hh) as H.
    split; [exact H|]. destruct (JS.mul w h); try reflexivity. discriminate.
  - exists (filled true "1e-200" "1e-200" "" ""). eexists.
    split; vm_compute; reflexivity.
  - exists (filled true "1e200" "1e200" "" ""). eexists.
    split; vm_compute; reflexivity.
Qed.

(** X4. Adding an item and then removing the last row gives back the
    list of items, and with it the total, that was there before. *)
Theorem add_then_remove (st : State) (selected : Product.t) :
  selectedProduct (form st) = Some selected ->
  JS.ltb JS.zero (JS.parseFloat (width (form st))) = true ->
  JS.ltb JS.zero (JS.parseFloat (height (form st))) = true ->
  let st' := snd (addItemToQuote st) in
  length (quoteItems st') = S (length (quoteItems st)) /\
  quoteItems (removeItem st' (Z.of_nat (length (quoteItems st)))) =
    quoteItems st /\
  getTotal (removeItem st' (Z.of_nat (length (quoteItems st)))) = getTotal st.
Proof.
  intros Hsel Hw Hh st'. subst st'.
  rewrite (addItemToQuote_valid st selected Hsel Hw Hh). simpl.
  set (item := newItem _ _ _ _).
  assert (JS.splice1 (quoteItems st ++ [item])
            (Z.of_nat (length (quoteItems st))) = quoteItems st) as Heq.
  { rewrite splice1_in_range by (rewrite length_app; simpl; lia).
    rewrite take_app_length.
    rewrite drop_app_ge by lia.
    replace (S (length (quoteItems st)) - length (quoteItems st))%nat
      with 1%nat by lia.
    simpl. apply app_nil_r. }
  split; [rewrite length_app; simpl; lia|].
  split; [exact Heq|].
  unfold getTotal. simpl. rewrite Heq. reflexivity.
Qed.

Lemma add_then_remove_witness :
  quoteItems
    (removeItem (snd (addItemToQuote (filled true "1.20" "1.50" "" "")))
       (Z.of_nat 0)) = [].
Proof.
  exact (proj1 (proj2 (add_then_remove (filled true "1.20" "1.50" "" "")
                         scenarioProduct eq_refl eq_refl eq_refl))).
Defined.

(** X5. Whatever the index, [removeItem] removes at most one item and
    keeps the others in order: an index at or beyond the length removes
    nothing, a negative one counts from the end, and one below minus the
    length removes the first item. *)
Theorem removeItem_any_index (st : State) (index : Z) :
  let len := Z.of_nat (length (quoteItems st)) in
  sublist (quoteItems (removeItem st index)) (quoteItems st) /\
  (len <= index -> quoteItems (removeItem st index) = quoteItems st) /\
  (- len <= index < 0 ->
   quoteItems (removeItem st index) =
     take (Z.to_nat (len + index)) (quoteItems st) ++
     drop (S (Z.to_nat (len + index))) (quoteItems st)) /\
  (index < - len -> quoteItems (removeItem st index) = drop 1 (quoteItems st)).
Proof.
  intros len. split; [apply splice1_sublist|].
  split; [apply splice1_beyond|]. split.
  - intros H. simpl. unfold JS.splice1. fold len.
    assert ((index <? 0) = true) as -> by (apply Z.ltb_lt; lia).
    rewrite Z.max_l by lia. rewrite Z.min_l by lia.
    replace (Z.to_nat (len + index + 1)) with (S (Z.to_nat (len + index)))
      by lia.
    reflexivity.
  - intros H. simpl. unfold JS.splice1. fold len.
    assert ((index <? 0) = true) as -> by (apply Z.ltb_lt; lia).
    rewrite Z.max_r by lia. simpl.
    destruct (quoteItems st) as [|item items]; [reflexivity|].
    rewrite Z.min_l by (subst len; simpl length; lia).
    reflexivity.
Qed.

Lemma removeItem_any_index_witness :
  quoteItems (removeItem scenarioQuote 2) = quoteItems scenarioQuote /\
  quoteItems (removeItem scenarioQuote (-1)) = take 1 (quoteItems scenarioQuote) /\
  quoteItems (removeItem scenarioQuote (-7)) = drop 1 (quoteItems scenarioQuote).
Proof.
  destruct (removeItem_any_index scenarioQuote 2) as (_ & H2 & _ & _).
  destruct (removeItem_any_index scenarioQuote (-1)) as (_ & _ & H1 & _).
  destruct (removeItem_any_index scenarioQuote (-7)) as (_ & _ & _ & H7).
  split; [apply H2; vm_compute; discriminate|].
  split; [rewrite H1 by (vm_compute; split; [discriminate | reflexivity]);
          reflexivity|].
  apply H7. reflexivity.
Defined.

(** X6. A successful Add resets the form, so pressing Add again at once
    adds nothing: it asks for a product. *)
Theorem second_add_is_rejected (st : State) (selected : Product.t) :
  selectedProduct (form st) = Some selected ->
  JS.ltb JS.zero (JS.parseFloat (width (form st))) = true ->
  JS.ltb JS.zero (JS.parseFloat (height (form st))) = true ->
  let st' := snd (addItemToQuote st) in
  form st' = initialForm /\
  addItemToQuote st' = ([Alert "Error" "Selecciona un producto"], st').
Proof.
  intros Hsel Hw Hh st'. subst st'.
  rewrite (addItemToQuote_valid st selected Hsel Hw Hh).
  split; reflexivity.
Qed.

Lemma second_add_is_rejected_witness :
  let st' := snd (addItemToQuote (filled true "1.20" "1.50" "" "")) in
  addItemToQuote st' = ([Alert "Error" "Selecciona un producto"], st').
Proof.
  exact (proj2 (second_add_is_rejected (filled true "1.20" "1.50" "" "")
                  scenarioProduct eq_refl eq_refl eq_refl)).
Defined.

(** ** Saving a quote *)





(** ** Fetching the catalog *)

(** Runs [fetchData] or [fetchProducts] on a world, splitting on every
    answer of the backend. *)
Ltac run_fetch serve :=
  unfold onRefresh, fetchData, ProductsScreen.fetchProducts, fetchProducts;
  run_handler serve; rewrite <- ?app_assoc, ?drop_app_length; simpl.

(** Finds an effect in a list written out. *)
Ltac is_listed := repeat first [left; reflexivity | right].

(** X9. However the backend answers, [fetchData] ends with the loading
    and refreshing indicators off, and it leaves the perspective, the
    quote, the form, the client information, the documents and the saving
    flag as they were; a pull to refresh does the same. *)
Theorem fetchData_settles
  (Store : Type) (serve : Store -> request -> Store * option response)
  (BACKEND_URL : string) (w : World Store State) :
  let untouched st' :=
    isDistributor st' = isDistributor (screen w) /\
    quoteItems st' = quoteItems (screen w) /\
    savingQuote st' = savingQuote (screen w) /\
    form st' = form (screen w) /\
    client st' = client (screen w) /\
    export st' = export (screen w) in
  let after := screen (fst (fetchData Store serve BACKEND_URL w)) in
  let refreshed := screen (fst (onRefresh Store serve BACKEND_URL w)) in
  loading after = false /\ refreshing after = false /\ untouched after /\
  loading refreshed = false /\ refreshing refreshed = false /\
  untouched refreshed.
Proof.
  intros untouched after refreshed. subst untouched after refreshed.
  split; [|split; [|split; [|split; [|split]]]].
  all: run_fetch serve; repeat split; reflexivity.
Qed.

(** X10. What [fetchData] shows depends on the first answer. When the
    request is lost, the products and the configuration stay as they
    were, one alert is raised and the configuration is not asked for.
    When the answer has an error status, the products stay and the
    configuration is still asked for. When it lists products, these are
    shown and no seeding is asked for. When it lists none, the catalog is
    seeded and listed again, and that second list is shown whatever its
    status. *)
Theorem fetchData_by_answer
  (Store : Type) (serve : Store -> request -> Store * option response)
  (BACKEND_URL : string) (w : World Store State) :
  let list := GET (BACKEND_URL ++ "/api/products") in
  let seed := POST (BACKEND_URL ++ "/api/products/seed") None in
  let config := GET (BACKEND_URL ++ "/api/config") in
  let run := fetchData Store serve BACKEND_URL in
  (forall s1,
     serve (store w) list = (s1, None) ->
     screen (fst (run w)) = setRefreshing false (setLoading false (screen w)) /\
     store (fst (run w)) = s1 /\
     effects_of run w =
       [Fetch list; ConsoleError "Error fetching data:";
        Alert "Error" "No se pudieron cargar los datos"]) /\
  (forall s1 content,
     serve (store w) list = (s1, Some {| ok := false; body := content |}) ->
     products (screen (fst (run w))) = products (screen w) /\
     Fetch config ∈ effects_of run w /\
     Fetch seed ∉ effects_of run w) /\
  (forall s1 product others,
     serve (store w) list =
       (s1, Some {| ok := true; body := JProducts (product :: others) |}) ->
     products (screen (fst (run w))) = product :: others /\
     Fetch config ∈ effects_of run w /\
     Fetch seed ∉ effects_of run w) /\
  (forall s1 s2 s3 seeded status listed,
     serve (store w) list = (s1, Some {| ok := true; body := JProducts [] |}) ->
     serve s1 seed = (s2, Some seeded) ->
     serve s2 list = (s3, Some {| ok := status; body := JProducts listed |}) ->
     products (screen (fst (run w))) = listed /\
     Fetch config ∈ effects_of run w).
Proof.
  intros list seed config run. subst list seed config run.
  split; [|split; [|split]].
  - intros s1 E. unfold fetchData, effects_of, finally, try_catch, bind,
      fetch, update, emit, ret, throw; simpl. rewrite E; simpl.
    rewrite <- ?app_assoc, drop_app_length. repeat split.
  - intros s1 content E. unfold fetchData, effects_of, finally, try_catch,
      bind, fetch, json_config, update, emit, ret, throw; simpl.
    rewrite E; simpl.
    destruct (serve s1 _) as [s2 [[[] []]|]]; simpl;
      rewrite <- ?app_assoc, drop_app_length; simpl;
      (split; [reflexivity|]); rewrite !elem_of_cons, !elem_of_nil;
      (split; [is_listed | intuition discriminate]).
  - intros s1 product others E. unfold fetchData, effects_of, finally,
      try_catch, bind, fetch, json_products, json_config, update, emit, ret,
      throw; simpl.
    rewrite E; simpl.
    destruct (serve s1 _) as [s2 [[[] []]|]]; simpl;
      rewrite <- ?app_assoc, drop_app_length; simpl;
      (split; [reflexivity|]); rewrite !elem_of_cons, !elem_of_nil;
      (split; [is_listed | intuition discriminate]).
  - intros s1 s2 s3 seeded status listed E1 E2 E3.
    unfold fetchData, effects_of, finally, try_catch, bind, fetch,
      json_products, json_config, update, emit, ret, throw; simpl.
    rewrite E1; simpl. rewrite E2; simpl. rewrite E3; simpl.
    destruct (serve s3 _) as [s4 [[[] []]|]]; simpl;
      rewrite <- ?app_assoc, drop_app_length; simpl;
      (split; [reflexivity|]); rewrite !elem_of_cons, elem_of_nil;
      is_listed.
Qed.

Lemma fetchData_by_answer_witness :
  let w := {| screen := scenarioQuote; store := tt; trace := [] |} in
  effects_of (fetchData unit offline "") w =
    [Fetch (GET "/api/products"); ConsoleError "Error fetching data:";
     Alert "Error" "No se pudieron cargar los datos"].
Proof.
  intros w.
  destruct (fetchData_by_answer unit offline "" w) as (Hlost & _).
  destruct (Hlost tt eq_refl) as (_ & _ & Heffects). exact Heffects.
Defined.

(** X11. One run of [fetchData] sends at most four requests, asks for
    seeding at most once, also when the catalog is still empty afterwards,
    and raises at most one alert; [fetchProducts] of the products screen
    sends at most three. *)
Theorem fetch_is_bounded
  (Store : Type) (serve : Store -> request -> Store * option response)
  (BACKEND_URL : string) :
  (forall w : World Store State,
     let effects := effects_of (fetchData Store serve BACKEND_URL) w in
     (length (List.filter is_fetch effects) <= 4)%nat /\
     (length (List.filter (is_seed BACKEND_URL) effects) <= 1)%nat /\
     (length (List.filter is_alert effects) <= 1)%nat) /\
  (forall w : World Store ProductsScreen.State,
     let effects :=
       effects_of (ProductsScreen.fetchProducts Store serve BACKEND_URL) w in
     (length (List.filter is_fetch effects) <= 3)%nat /\
     (length (List.filter (is_seed BACKEND_URL) effects) <= 1)%nat /\
     (length (List.filter is_alert effects) <= 1)%nat).
Proof.
  split; intros w effects; subst effects.
  - run_fetch serve; repeat split; simpl;
      repeat (destruct (String.eqb _ _); simpl); lia.
  - run_fetch serve; repeat split; simpl;
      repeat (destruct (String.eqb _ _); simpl); lia.
Qed.

(** What the sessions below need of a fetch. *)
Lemma fetchData_leaves
  (Store : Type) (serve : Store -> request -> Store * option response)
  (BACKEND_URL : string) (w : World Store State) :
  let st' := screen (fst (fetchData Store serve BACKEND_URL w)) in
  loading st' = false /\ refreshing st' = false /\
  quoteItems st' = quoteItems (screen w) /\
  savingQuote st' = savingQuote (screen w) /\
  form st' = form (screen w).
Proof.
  intros st'. subst st'. run_fetch serve; repeat split; reflexivity.
Qed.

(** ** Sessions on the quote screen *)

Lemma initialForm_offered : offered_form initialForm.
Proof.
  unfold offered_form, offered, CHAIN_OPTIONS, FASCIA_OPTIONS,
    FASCIA_COLOR_OPTIONS; simpl.
  rewrite !elem_of_cons. repeat split; is_listed.
Qed.

Lemma addItemToQuote_offered (st : State) :
  offered_form (form st) ->
  Forall offered_item (quoteItems st) ->
  offered_form (form (snd (addItemToQuote st))) /\
  Forall offered_item (quoteItems (snd (addItemToQuote st))).
Proof.
  intros Hform Hitems. unfold addItemToQuote.
  destruct (selectedProduct (form st)) as [selected|]; [|simpl; auto].
  destruct (_ || _ || _ || _); simpl; [auto|].
  split; [apply initialForm_offered|].
  apply Forall_app. split; [exact Hitems|].
  apply Forall_singleton. exact Hform.
Qed.

Lemma Forall_of_sublist {A} (P : A -> Prop) (l k : list A) :
  sublist l k -> Forall P k -> Forall P l.
Proof.
  intros Hsub Hk. rewrite Forall_forall in *. intros x Hx.
  apply Hk. eapply sublist_subseteq; [exact Hsub | exact Hx].
Qed.

Lemma has_items_nonempty (st : State) :
  negb (length (quoteItems st) =? 0)%nat = true -> quoteItems st <> [].
Proof. destruct (quoteItems st); [discriminate | discriminate]. Qed.

Lemma save_without_items
  (Store : Type) (serve : Store -> request -> Store * option response)
  (BACKEND_URL : string) (w : World Store State) :
  quoteItems (screen w) = [] ->
  screen (fst (saveAndExportPDF Store serve BACKEND_URL (screen w) w)) =
    screen w.
Proof. intros H. unfold saveAndExportPDF. rewrite H. reflexivity. Qed.

Section Sessions.
Variable Store : Type.
Variable serve : Store -> request -> Store * option response.
Variable BACKEND_URL : string.

Lemma save_keeps_form (w : World Store State) :
  let st' :=
    screen (fst (saveAndExportPDF Store serve BACKEND_URL (screen w) w)) in
  form st' = form (screen w) /\
  (quoteItems st' = [] \/ quoteItems st' = quoteItems (screen w)) /\
  (quoteItems (screen w) <> [] -> savingQuote st' = false) /\
  loading st' = loading (screen w) /\
  refreshing st' = refreshing (screen w).
Proof.
  intros st'. subst st'.
  destruct (quoteItems (screen w)) as [|item items] eqn:Eitems.
  - rewrite (save_without_items Store serve BACKEND_URL w Eitems).
    rewrite Eitems. repeat split; auto. congruence.
  - unfold saveAndExportPDF. rewrite Eitems. simpl Nat.eqb. cbv iota.
    unfold finally, try_catch, bind, fetch, update, emit, ret, throw; simpl.
    destruct (serve (store w) _) as [s1 [[[] []]|]]; simpl;
      rewrite ?Eitems; try (repeat split; auto; fail).
    destruct (serve s1 _) as [s2 [[[] []]|]]; simpl;
      rewrite ?Eitems; repeat split; auto.
Qed.

Lemma operate_offered (w : World Store State) (c : control) :
  offered_form (form (screen w)) ->
  Forall offered_item (quoteItems (screen w)) ->
  offered_form (form (screen (operate Store serve BACKEND_URL w c))) /\
  Forall offered_item
    (quoteItems (screen (operate Store serve BACKEND_URL w c))).
Proof.
  intros Hform Hitems. unfold operate.
  destruct Hform as (Hchain & Hfascia & Hcolor).
  destruct c; simpl;
    try (split; [repeat split|]; assumption).
  - destruct (products (screen w) !! i); simpl;
      (split; [repeat split|]; assumption).
  - destruct (selectedProduct (form (screen w))); simpl;
      (split; [repeat split|]; assumption).
  - destruct (CHAIN_OPTIONS !! i) as [option|] eqn:E; simpl;
      [|split; [repeat split|]; assumption].
    split; [|assumption]. repeat split; try assumption.
    apply (list_elem_of_lookup_2 _ _ _ E).
  - destruct (FASCIA_OPTIONS !! i) as [option|] eqn:E; simpl;
      [|split; [repeat split|]; assumption].
    split; [|assumption]. repeat split; try assumption.
    apply (list_elem_of_lookup_2 _ _ _ E).
  - destruct (FASCIA_COLOR_OPTIONS !! i) as [option|] eqn:E; simpl;
      [|split; [repeat split|]; assumption].
    split; [|assumption]. repeat split; try assumption.
    apply (list_elem_of_lookup_2 _ _ _ E).
  - destruct (negb _); simpl; (split; [repeat split|]; assumption).
  - pose proof (addItemToQuote_offered (screen w)
                  (conj Hchain (conj Hfascia Hcolor)) Hitems) as H.
    destruct (addItemToQuote (screen w)) as [effects st']. exact H.
  - destruct (i <? _)%nat; simpl; [|split; [repeat split|]; assumption].
    split; [repeat split; assumption|].
    eapply Forall_of_sublist; [apply splice1_sublist | exact Hitems].
  - destruct (negb _); simpl; [|split; [repeat split|]; assumption].
    destruct confirmed; simpl; (split; [repeat split; assumption|]);
      [apply Forall_nil_2 | assumption].
  - pose proof (fetchData_leaves Store serve BACKEND_URL
                  {| screen := setRefreshing true (screen w);
                     store := store w; trace := trace w |})
      as (_ & _ & Hq & _ & Hf).
    unfold onRefresh, bind, update. simpl in *.
    rewrite Hq, Hf. split; [repeat split|]; assumption.
  - destruct (negb _ && negb _); simpl;
      [|split; [repeat split|]; assumption].
    destruct (save_keeps_form w) as (Hf & Hq & _).
    rewrite Hf. split; [repeat split; assumption|].
    destruct Hq as [-> | ->]; [apply Forall_nil_2 | assumption].
Qed.

Lemma operate_indicators (w : World Store State) (c : control) :
  savingQuote (screen w) = false ->
  loading (screen w) = false ->
  refreshing (screen w) = false ->
  let st' := screen (operate Store serve BACKEND_URL w c) in
  savingQuote st' = false /\ loading st' = false /\ refreshing st' = false.
Proof.
  intros Hs Hl Hr. unfold operate.
  destruct c; simpl; try (repeat split; assumption).
  - destruct (products (screen w) !! i); simpl; repeat split; assumption.
  - destruct (selectedProduct (form (screen w))); simpl;
      repeat split; assumption.
  - destruct (CHAIN_OPTIONS !! i); simpl; repeat split; assumption.
  - destruct (FASCIA_OPTIONS !! i); simpl; repeat split; assumption.
  - destruct (FASCIA_COLOR_OPTIONS !! i); simpl; repeat split; assumption.
  - destruct (negb _); simpl; repeat split; assumption.
  - unfold addItemToQuote.
    destruct (selectedProduct (form (screen w))); simpl;
      [|repeat split; assumption].
    destruct (_ || _ || _ || _); simpl; repeat split; assumption.
  - destruct (i <? _)%nat; simpl; repeat split; assumption.
  - destruct (negb _); simpl; [|repeat split; assumption].
    destruct confirmed; simpl; repeat split; assumption.
  - pose proof (fetchData_leaves Store serve BACKEND_URL
                  {| screen := setRefreshing true (screen w);
                     store := store w; trace := trace w |})
      as (Hl' & Hr' & _ & Hs' & _).
    unfold onRefresh, bind, update. simpl in *.
    rewrite Hl', Hr', Hs'. repeat split; assumption.
  - destruct (negb _) eqn:Hitems; simpl; [|repeat split; assumption].
    rewrite Hs. simpl.
    destruct (save_keeps_form w) as (_ & _ & Hs' & Hl' & Hr').
    rewrite Hl', Hr', Hs' by (apply has_items_nonempty, Hitems).
    repeat split; assumption.
Qed.
End Sessions.

(** X12. In a session, the chain orientation, the fascia type and the
    fascia colour of the form and of every line item are always among the
    options the pickers offer. *)
Theorem accessories_are_offered
  (Store : Type) (serve : Store -> request -> Store * option response)
  (BACKEND_URL : string) (w : World Store State) (cs : list control) :
  offered_form (form (screen w)) ->
  Forall offered_item (quoteItems (screen w)) ->
  let w' := session Store serve BACKEND_URL w cs in
  offered_form (form (screen w')) /\
  Forall offered_item (quoteItems (screen w')).
Proof.
  intros Hform Hitems w'. subst w'. unfold session.
  assert (offered_form (form (screen (step Store serve BACKEND_URL w Mount)))
          /\ Forall offered_item
               (quoteItems (screen (step Store serve BACKEND_URL w Mount))))
    as Hstart.
  { pose proof (fetchData_leaves Store serve BACKEND_URL w)
      as (_ & _ & Hq & _ & Hf).
    simpl in *. rewrite Hq, Hf. split; assumption. }
  revert Hstart. generalize (step Store serve BACKEND_URL w Mount).
  induction cs as [|c cs IH]; intros w0 [Hf Hq]; simpl; [split; assumption|].
  apply IH. apply operate_offered; assumption.
Qed.

Lemma accessories_are_offered_witness :
  let w := {| screen := initialState; store := [scenarioProduct];
              trace := [] |} in
  let cs := [ProductRow 0; WidthInput "1.20"; HeightInput "1.50";
             ChainRow 0; FasciaRow 2; FasciaColorRow 4; AddButton] in
  Forall offered_item
    (quoteItems (screen (session _ (SpecBackend.serve [] "") "" w cs))).
Proof.
  intros w cs.
  apply (accessories_are_offered _ (SpecBackend.serve [] "") "" w cs).
  - apply initialForm_offered.
  - apply Forall_nil_2.
Defined.

Example session_adds_the_picked_options :
  let w := {| screen := initialState; store := [scenarioProduct];
              trace := [] |} in
  let cs := [ProductRow 0; WidthInput "1.20"; HeightInput "1.50";
             ChainRow 0; FasciaRow 2; FasciaColorRow 4; AddButton] in
  map (fun item => (QuoteItem.chain_orientation item,
                    QuoteItem.fascia_type item,
                    QuoteItem.fascia_color item))
    (quoteItems (screen (session _ (SpecBackend.serve [] "") "" w cs))) =
    [("Izquierda", "Cuadrada forrada", "Ivory")].
Proof. reflexivity. Qed.

(** X13. In a session no indicator is left on: after every control the
    saving flag, the loading flag and the refreshing flag are off,
    however the backend answered. *)
Theorem indicators_settle
  (Store : Type) (serve : Store -> request -> Store * option response)
  (BACKEND_URL : string) (w : World Store State) (cs : list control) :
  savingQuote (screen w) = false ->
  let st' := screen (session Store serve BACKEND_URL w cs) in
  savingQuote st' = false /\ loading st' = false /\ refreshing st' = false.
Proof.
  intros Hs st'. subst st'. unfold session.
  assert (let st0 := screen (step Store serve BACKEND_URL w Mount) in
          savingQuote st0 = false /\ loading st0 = false /\
          refreshing st0 = false) as Hstart.
  { pose proof (fetchData_leaves Store serve BACKEND_URL w)
      as (Hl & Hr & _ & Hs' & _).
    simpl in *. rewrite Hl, Hr, Hs'. repeat split; assumption. }
  revert Hstart. generalize (step Store serve BACKEND_URL w Mount).
  induction cs as [|c cs IH]; intros w0 (H1 & H2 & H3); simpl;
    [repeat split; assumption|].
  apply IH. apply operate_indicators; assumption.
Qed.

Lemma indicators_settle_witness :
  let w := {| screen := scenarioQuote; store := tt; trace := [] |} in
  savingQuote
    (screen (session unit offline "" w [PullDown; ExportButton; AddButton]))
    = false.
Proof.
  intros w.
  exact (proj1 (indicators_settle unit offline "" w
                  [PullDown; ExportButton; AddButton] eq_refl)).
Defined.

(** ** Sharing a document *)

Section SharingFacts.
Variable Env : Type.
Variable writeAsStringAsync : Env -> string -> string -> Env * bool.
Variable isAvailableAsync : Env -> bool.
Variable shareAsync : Env -> string -> Env * bool.
Variable documentDirectory : string.

Local Abbreviation sharePdf' :=
  (sharePdf Env writeAsStringAsync isAvailableAsync shareAsync
     documentDirectory).

(** X14. Without a document of the requested type [sharePdf] only
    raises an alert: nothing is written or shared. That is so for both
    types once the documents are dismissed with [closePdfModal]. *)
Theorem share_needs_a_document
  (st : State) (type : pdfType) (sc : Act.Scene Env State) :
  requestedPdf st type = None ->
  sharePdf' st type sc =
    ({| Act.view := Act.view sc; Act.env := Act.env sc;
        Act.log := Act.log sc ++
                   [Effect (Alert "Error" "No hay PDF disponible")] |},
     Returned tt) /\
  (forall type',
     Act.actions_of (sharePdf' (closePdfModal st) type') sc =
       [Effect (Alert "Error" "No hay PDF disponible")]).
Proof.
  intros Hnone. unfold sharePdf. split.
  - destruct type; simpl in Hnone; rewrite Hnone; reflexivity.
  - intros type'. unfold Act.actions_of.
    destruct type'; simpl; apply drop_app_length.
Qed.

(** X15. With a document of the requested type [sharePdf] writes that
    document, and no other, under the document directory and its file
    name, once. It shares that file only, after the write succeeded and
    when sharing is available; it raises an error alert exactly when the
    write or the sharing fails; and it leaves the screen as it is. *)
Theorem share_sends_the_requested_document
  (st : State) (type : pdfType) (pdf : Pdf) (sc : Act.Scene Env State) :
  requestedPdf st type = Some pdf ->
  let fileUri := (documentDirectory ++ filename pdf)%string in
  let written := writeAsStringAsync (Act.env sc) fileUri (base64 pdf) in
  let shared := shareAsync (fst written) fileUri in
  let failed :=
    negb (snd written) || isAvailableAsync (fst written) && negb (snd shared) in
  exists rest,
    Act.actions_of (sharePdf' st type) sc =
      WriteAsString fileUri (base64 pdf) :: rest /\
    (forall uri contents, WriteAsString uri contents ∉ rest) /\
    (forall uri,
       Share uri ∈ rest ->
       uri = fileUri /\ snd written = true /\
       isAvailableAsync (fst written) = true) /\
    (Effect (Alert "Error" "No se pudo compartir el PDF") ∈ rest <->
     failed = true) /\
    Act.view (fst (sharePdf' st type sc)) = Act.view sc.
Proof.
  intros Hsome fileUri written shared failed.
  subst failed shared written fileUri. unfold sharePdf.
  assert (match type with
          | ForDistributor => distributorPdf (export st)
          | ForClient => clientPdf (export st)
          end = Some pdf) as -> by (destruct type; exact Hsome).
  unfold Act.actions_of, Act.try_catch, Act.bind, Act.write, Act.available,
    Act.share, Act.emit; simpl.
  destruct (writeAsStringAsync _ _ _) as [e1 []]; simpl.
  - destruct (isAvailableAsync e1); simpl.
    + destruct (shareAsync e1 _) as [e2 []]; simpl;
        rewrite <- ?app_assoc, drop_app_length; simpl;
        eexists; (split; [reflexivity|]);
        rewrite ?elem_of_cons, ?elem_of_nil;
        repeat split; try discriminate; try tauto;
        intros; rewrite ?elem_of_cons, ?elem_of_nil in *;
        intuition (try discriminate; try congruence).
    + rewrite <- ?app_assoc, drop_app_length; simpl.
      eexists; (split; [reflexivity|]).
      repeat split; try discriminate;
        intros; rewrite ?elem_of_cons, ?elem_of_nil in *;
        intuition (try discriminate; try congruence).
  - rewrite <- ?app_assoc, drop_app_length; simpl.
    eexists; (split; [reflexivity|]).
    repeat split; try discriminate;
      intros; rewrite ?elem_of_cons, ?elem_of_nil in *;
      intuition (try discriminate; try congruence).
Qed.
End SharingFacts.

Lemma share_needs_a_document_witness :
  Act.actions_of
    (sharePdf unit writes can_share shares "file:///docs/" initialState
       ForClient)
    {| Act.view := initialState; Act.env := tt; Act.log := [] |} =
    [Effect (Alert "Error" "No hay PDF disponible")].
Proof.
  unfold Act.actions_of.
  rewrite (proj1 (share_needs_a_document unit writes can_share shares
                    "file:///docs/" initialState ForClient _ eq_refl)).
  reflexivity.
Defined.

Lemma share_sends_the_requested_document_witness :
  let st := savedState scenarioQuote "JVBERi0x" "dist.pdf" "JVBERi0y"
              "client.pdf" in
  exists rest,
    Act.actions_of
      (sharePdf unit writes can_share shares "file:///docs/" st ForDistributor)
      {| Act.view := st; Act.env := tt; Act.log := [] |} =
      WriteAsString "file:///docs/dist.pdf" "JVBERi0x" :: rest.
Proof.
  intros st.
  destruct (share_sends_the_requested_document unit writes can_share shares
              "file:///docs/" st ForDistributor
              {| base64 := "JVBERi0x"; filename := "dist.pdf" |}
              {| Act.view := st; Act.env := tt; Act.log := [] |} eq_refl)
    as (rest & H & _).
  exists rest. exact H.
Defined.

(** ** The product editor *)

Lemma or_null_not_empty (s : string) : JS.or_null s <> Some "".
Proof. destruct s; discriminate. Qed.

(** X16. A new colour needs a name: with a blank name [addColor] raises
    an alert and changes nothing; otherwise it appends the colour, with
    the name trimmed, after the ones already there and clears the two
    inputs. Adding and removing colours keeps every colour of the form
    named, with a code that is absent or not empty. *)
Theorem colors_stay_named (st : ProductsEditor.State) (index : Z) :
  Forall named_color (ProductsEditor.colors (ProductsEditor.form st)) ->
  let added := ProductsEditor.addColor st in
  let typed := JS.trim (ProductsEditor.newColorName (ProductsEditor.draft st)) in
  (typed = "" ->
   added = ([Alert "Error" "Ingresa el nombre del color"], st)) /\
  (typed <> "" ->
   fst added = [] /\
   ProductsEditor.draft (snd added) = ProductsEditor.blankDraft /\
   exists color,
     ProductColor.name color = typed /\
     ProductsEditor.colors (ProductsEditor.form (snd added)) =
       ProductsEditor.colors (ProductsEditor.form st) ++ [color]) /\
  Forall named_color (ProductsEditor.colors (ProductsEditor.form (snd added))) /\
  Forall named_color
    (ProductsEditor.colors
       (ProductsEditor.form (ProductsEditor.removeColor st index))).
Proof.
  intros Hnamed added typed. subst added typed.
  unfold ProductsEditor.addColor.
  destruct (JS.trim _) as [|c rest] eqn:Etrim; simpl.
  - split; [reflexivity|]. split; [congruence|].
    split; [exact Hnamed|].
    eapply Forall_of_sublist; [apply splice1_sublist | exact Hnamed].
  - split; [discriminate|].
    split.
    { intros _. split; [reflexivity|]. split; [reflexivity|].
      eexists. split; [|reflexivity]. reflexivity. }
    split.
    { apply Forall_app. split; [exact Hnamed|].
      apply Forall_singleton. split; [reflexivity|].
      simpl. apply or_null_not_empty. }
    eapply Forall_of_sublist; [apply splice1_sublist | exact Hnamed].
Qed.

Lemma colors_stay_named_witness :
  let st := ProductsEditor.setDraft
              {| ProductsEditor.newColorName := "  Nogal ";
                 ProductsEditor.newColorCode := " " |}
              ProductsEditor.initialState in
  Forall named_color
    (ProductsEditor.colors (ProductsEditor.form (snd (ProductsEditor.addColor st)))).
Proof.
  intros st.
  destruct (colors_stay_named st 0) as (_ & _ & H & _).
  - apply Forall_nil_2.
  - exact H.
Defined.

Example addColor_trims :
  let st := ProductsEditor.setDraft
              {| ProductsEditor.newColorName := "  Nogal ";
                 ProductsEditor.newColorCode := " " |}
              ProductsEditor.initialState in
  ProductsEditor.colors (ProductsEditor.form (snd (ProductsEditor.addColor st)))
    = [{| ProductColor.name := "Nogal"; ProductColor.code := None |}].
Proof. reflexivity. Qed.

Section EditorFacts.
Variable Env : Type.
Variable serve : Env -> request -> Env * option response.
Variable serveWith : Env -> productRequest -> Env * option bool.
Variable BACKEND_URL : string.

Local Abbreviation saveProduct' :=
  (ProductsEditor.saveProduct Env serve serveWith BACKEND_URL).
Local Abbreviation deleteProduct' :=
  (ProductsEditor.deleteProduct Env serve serveWith BACKEND_URL).
Local Abbreviation fetchProducts' :=
  (ProductsEditor.fetchProducts Env serve BACKEND_URL).
Local Abbreviation request_of := (requestFor BACKEND_URL).


(** X17. [saveProduct] refuses a form without a name, or with a price
    that is not a number above zero: it raises one alert, sends nothing
    and leaves the editor as it is. The name is checked first, then the
    distributor price, then the client price. *)
Theorem refused_product_is_not_sent
  (st : ProductsEditor.State) (sc : Act.Scene Env ProductsEditor.State) :
  refused_product st ->
  exists message,
    saveProduct' st sc =
      ({| Act.view := Act.view sc; Act.env := Act.env sc;
          Act.log := Act.log sc ++ [Effect (Alert "Error" message)] |},
       Returned tt) /\
    (nonempty (JS.trim (ProductsEditor.name (ProductsEditor.form st))) = false ->
     message = "El nombre es requerido").
Proof.
  unfold refused_product. intros H.
  unfold ProductsEditor.saveProduct.
  destruct (nonempty (JS.trim _)) eqn:Ename; simpl.
  - destruct H as [H|H]; [discriminate|].
    destruct (JS.isNaN (JS.parseFloat (ProductsEditor.distributorPrice _)))
      eqn:E1; simpl; [eexists; split; [reflexivity | discriminate]|].
    destruct (JS.leb (JS.parseFloat (ProductsEditor.distributorPrice _)) _)
      eqn:E2; simpl; [eexists; split; [reflexivity | discriminate]|].
    destruct H as [H|[H|H]]; [discriminate | discriminate |].
    destruct (JS.isNaN (JS.parseFloat (ProductsEditor.clientPrice _)))
      eqn:E3; simpl; [eexists; split; [reflexivity | discriminate]|].
    destruct (JS.leb (JS.parseFloat (ProductsEditor.clientPrice _)) _)
      eqn:E4; simpl; [eexists; split; [reflexivity | discriminate]|].
    destruct H as [H|H]; discriminate.
  - eexists; split; reflexivity.
Qed.

Lemma fetchProducts_keeps_modal
  (P : bool -> option Product.t -> bool -> ProductsEditor.ProductForm ->
       ProductsEditor.ColorDraft -> Prop) :
  keeps
    (fun st =>
       P (ProductsEditor.showModal st) (ProductsEditor.editingProduct st)
         (ProductsEditor.saving st) (ProductsEditor.form st)
         (ProductsEditor.draft st))
    fetchProducts'.
Proof.
  unfold ProductsEditor.fetchProducts, fetchProducts.
  keeps_steps; intros st H; exact H.
Qed.

Lemma fetchProducts_starts_with_the_list (w : World Env ProductsEditor.State) :
  exists rest,
    trace (fst (fetchProducts' w)) =
      trace w ++ Fetch (GET (BACKEND_URL ++ "/api/products")) :: rest.
Proof.
  unfold ProductsEditor.fetchProducts, fetchProducts.
  unfold finally, try_catch, bind, fetch, json_products, update, emit, ret,
    throw; simpl.
  repeat match goal with
    | |- context [serve ?s ?r] =>
        destruct (serve s r) as [? [[[] []]|]]; simpl
    | |- context [(length ?l =? 0)%nat] => is_var l; destruct l; simpl
    end;
    rewrite <- ?app_assoc; simpl; eexists; reflexivity.
Qed.

(** [fetchProducts] catches what it throws: it always returns. *)
Lemma fetchProducts_returns (w : World Env ProductsEditor.State) :
  snd (fetchProducts' w) = Returned tt.
Proof.
  unfold ProductsEditor.fetchProducts, fetchProducts.
  unfold finally, try_catch, bind, fetch, json_products, update, emit, ret,
    throw; simpl.
  repeat match goal with
    | |- context [serve ?s ?r] =>
        destruct (serve s r) as [? [[[] []]|]]; simpl
    | |- context [(length ?l =? 0)%nat] => is_var l; destruct l; simpl
    end; reflexivity.
Qed.

Lemma not_an_effect (r : productRequest) (l : list effect) :
  FetchWith r ∉ map Effect l.
Proof.
  intros H. apply list_elem_of_fmap in H as (e & He & _). discriminate.
Qed.

Lemma saveProduct_accepted
  (st : ProductsEditor.State) (sc : Act.Scene Env ProductsEditor.State) :
  ~ refused_product st ->
  saveProduct' st sc =
    Act.bind (Act.update (ProductsEditor.setSaving true))
      (fun _ =>
         Act.finally
           (Act.try_catch
              (Act.bind (Act.fetchWith serveWith (request_of st))
                 (fun ok : bool =>
                    if ok then
                      Act.bind
                        (Act.emit
                           (Alert "Éxito"
                              match ProductsEditor.editingProduct st with
                              | Some _ => "Producto actualizado"
                              | None => "Producto creado"
                              end))
                        (fun _ =>
                           Act.bind (Act.update ProductsEditor.closeModal)
                             (fun _ => Act.lift fetchProducts'))
                    else Act.throw))
              (Act.bind (Act.emit (ConsoleError "Error saving product:"))
                 (fun _ =>
                    Act.emit (Alert "Error" "No se pudo guardar el producto"))))
           (Act.update (ProductsEditor.setSaving false))) sc.
Proof.
  intros Hok. unfold requestFor.
  unfold ProductsEditor.saveProduct, refused_product in *.
  destruct (nonempty (JS.trim _)); [|tauto]. simpl.
  destruct (JS.isNaN (JS.parseFloat (ProductsEditor.distributorPrice _)));
    [tauto|].
  destruct (JS.leb (JS.parseFloat (ProductsEditor.distributorPrice _)) _);
    [tauto|].
  destruct (JS.isNaN (JS.parseFloat (ProductsEditor.clientPrice _)));
    [tauto|].
  destruct (JS.leb (JS.parseFloat (ProductsEditor.clientPrice _)) _);
    [tauto|].
  simpl. destruct (ProductsEditor.editingProduct st); reflexivity.
Qed.




(** X19. A save of an accepted form ends with the saving flag off. When
    the backend answers with success, the modal is closed, the success
    alert is raised and the catalog is fetched again; the form keeps its
    text. When it answers with an error status, or the request is lost,
    the modal stays open with everything typed, the catalog shown stays,
    and one error alert is raised. *)
Theorem saveProduct_outcome
  (st : ProductsEditor.State) (sc : Act.Scene Env ProductsEditor.State) :
  ~ refused_product st ->
  let answer := serveWith (Act.env sc) (request_of st) in
  let after := Act.view (fst (saveProduct' st sc)) in
  let actions := Act.actions_of (saveProduct' st) sc in
  ProductsEditor.saving after = false /\
  (snd answer = Some true ->
   modalPart after =
     (false, None, ProductsEditor.form (Act.view sc),
      ProductsEditor.blankDraft) /\
   exists title rest,
     actions =
       FetchWith (request_of st) :: Effect (Alert "Éxito" title)
         :: Effect (Fetch (GET (BACKEND_URL ++ "/api/products"))) :: rest) /\
  (snd answer <> Some true ->
   after = ProductsEditor.setSaving false (Act.view sc) /\
   actions =
     [FetchWith (request_of st);
      Effect (ConsoleError "Error saving product:");
      Effect (Alert "Error" "No se pudo guardar el producto")]).
Proof.
  intros Hok answer after actions. subst answer after actions.
  unfold Act.actions_of. rewrite (saveProduct_accepted st sc Hok).
  unfold Act.bind, Act.finally, Act.try_catch, Act.fetchWith, Act.update,
    Act.emit, Act.throw, Act.lift; simpl.
  destruct (serveWith (Act.env sc) (request_of st)) as [e1 [[]|]]; simpl.
  - match goal with
    | |- context [fetchProducts' ?w] =>
        pose proof (fetchProducts_returns w) as Hret;
        pose proof (fetchProducts_keeps_modal
                      (fun a b c d e =>
                         (a, b, c, d, e) =
                         (false, None, true,
                          ProductsEditor.form (Act.view sc),
                          ProductsEditor.blankDraft)) w eq_refl) as Hkeep;
        destruct (fetchProducts_starts_with_the_list w) as [rest Hrest];
        destruct (fetchProducts' w) as [w' r']
    end.
    simpl in Hret, Hkeep, Hrest. subst r'. simpl.
    injection Hkeep as H1 H2 H3 H4 H5.
    split; [reflexivity|]. split; [|congruence].
    intros _. split.
    + unfold modalPart. simpl. rewrite H1, H2, H4, H5. reflexivity.
    + rewrite <- !app_assoc, drop_app_length. rewrite Hrest. simpl.
      do 2 eexists. reflexivity.
  - split; [reflexivity|]. split; [discriminate|].
    intros _. split; [reflexivity|].
    rewrite <- !app_assoc, drop_app_length. reflexivity.
  - split; [reflexivity|]. split; [discriminate|].
    intros _. split; [reflexivity|].
    rewrite <- !app_assoc, drop_app_length. reflexivity.
Qed.

(** X20. Cancelling the deletion of a product does nothing. Confirming
    it sends one DELETE to the product's own address; the products shown
    then change only through the fetch that follows a success: when the
    backend answers with an error status, or the request is lost, the
    screen stays as it is and one error alert is raised. *)
Theorem deleteProduct_outcome
  (product : Product.t) (sc : Act.Scene Env ProductsEditor.State) :
  let request :=
    {| method := "DELETE";
       url := BACKEND_URL ++ "/api/products/" ++ Product.id product;
       payload := None |} in
  let answer := serveWith (Act.env sc) request in
  let run := deleteProduct' true product in
  deleteProduct' false product sc = (sc, Returned tt) /\
  (snd answer = Some true ->
   modalPart (Act.view (fst (run sc))) = modalPart (Act.view sc) /\
   exists rest,
     Act.actions_of run sc =
       FetchWith request :: Effect (Alert "Éxito" "Producto eliminado")
         :: Effect (Fetch (GET (BACKEND_URL ++ "/api/products"))) :: rest /\
     forall r, FetchWith r ∉ rest) /\
  (snd answer <> Some true ->
   Act.view (fst (run sc)) = Act.view sc /\
   Act.actions_of run sc =
     [FetchWith request;
      Effect (ConsoleError "Error deleting product:");
      Effect (Alert "Error" "No se pudo eliminar el producto")]).
Proof.
  intros request answer run. subst request answer run.
  split; [reflexivity|].
  unfold ProductsEditor.deleteProduct, Act.actions_of, Act.bind,
    Act.try_catch, Act.fetchWith, Act.emit, Act.throw, Act.lift; simpl.
  destruct (serveWith (Act.env sc) _) as [e1 [[]|]]; simpl.
  - match goal with
    | |- context [ProductsEditor.fetchProducts Env serve BACKEND_URL ?w] =>
        pose proof (fetchProducts_returns w) as Hret;
        pose proof (fetchProducts_keeps_modal
                      (fun a b c d e =>
                         (a, b, d, e) = modalPart (Act.view sc)) w eq_refl)
          as Hkeep;
        destruct (fetchProducts_starts_with_the_list w) as [rest Hrest];
        destruct (ProductsEditor.fetchProducts Env serve BACKEND_URL w)
          as [w' r']
    end.
    simpl in Hret, Hkeep, Hrest. subst r'. simpl.
    split; [|congruence]. intros _. split; [exact Hkeep|].
    rewrite <- !app_assoc, drop_app_length. rewrite Hrest. simpl.
    eexists. split; [reflexivity|].
    intros r H. destruct (not_an_effect r rest H).
  - split; [discriminate|]. intros _. split; [reflexivity|].
    rewrite <- !app_assoc, drop_app_length. reflexivity.
  - split; [discriminate|]. intros _. split; [reflexivity|].
    rewrite <- !app_assoc, drop_app_length. reflexivity.
Qed.
End EditorFacts.

Lemma refused_product_is_not_sent_witness :
  let st := typedProduct "Blackout" "0" "75" in
  let sc := {| Act.view := st; Act.env := tt; Act.log := [] |} in
  exists message,
    Act.log (fst (ProductsEditor.saveProduct unit offline accepts "" st sc)) =
      [Effect (Alert "Error" message)].
Proof.
  intros st sc.
  destruct (refused_product_is_not_sent unit offline accepts "" st sc)
    as (message & H & _).
  - right; right; left. reflexivity.
  - exists message. rewrite H. reflexivity.
Defined.


Lemma saveProduct_outcome_witness :
  let st := typedProduct " Blackout " "55" "75.50" in
  let sc := {| Act.view := st; Act.env := tt; Act.log := [] |} in
  ProductsEditor.saving
    (Act.view (fst (ProductsEditor.saveProduct unit offline accepts "" st sc)))
    = false /\
  ProductsEditor.showModal
    (Act.view (fst (ProductsEditor.saveProduct unit offline accepts "" st sc)))
    = false.
Proof.
  intros st sc.
  destruct (saveProduct_outcome unit offline accepts "" st sc)
    as (Hsaving & Hok & _).
  - unfold refused_product. vm_compute. intuition discriminate.
  - split; [exact Hsaving|].
    destruct (Hok eq_refl) as [Hmodal _].
    exact (f_equal (fun m => fst (fst (fst m))) Hmodal).
Defined.

Lemma deleteProduct_outcome_witness :
  let sc := {| Act.view := ProductsEditor.initialState; Act.env := tt;
               Act.log := [] |} in
  exists rest,
    Act.actions_of
      (ProductsEditor.deleteProduct unit offline accepts "" true
         scenarioProduct) sc =
      FetchWith {| method := "DELETE"; url := "/api/products/prod-1";
                   payload := None |}
        :: Effect (Alert "Éxito" "Producto eliminado")
        :: Effect (Fetch (GET "/api/products")) :: rest.
Proof.
  intros sc.
  destruct (deleteProduct_outcome unit offline accepts "" scenarioProduct sc)
    as (_ & Hok & _).
  destruct (Hok eq_refl) as (_ & rest & H & _).
  exists rest. exact H.
Defined.

(** ** The header and the products screen *)

(** X21. The name under the title is never blank: without a
    configuration, or with an empty business name, the default name is
    shown; and a fetch that brings no configuration leaves the name that
    was shown. *)
Theorem header_is_never_blank
  (Store : Type) (serve : Store -> request -> Store * option response)
  (BACKEND_URL : string) (w : World Store State) :
  nonempty (headerSubtitle (screen w)) = true /\
  (forall config,
     businessConfig (screen w) = Some config ->
     BusinessConfig.business_name config <> "" ->
     headerSubtitle (screen w) = BusinessConfig.business_name config) /\
  (businessConfig (screen (fst (fetchData Store serve BACKEND_URL w))) =
     businessConfig (screen w) \/
   exists s config,
     serve s (GET (BACKEND_URL ++ "/api/config")) =
       (store (fst (fetchData Store serve BACKEND_URL w)),
        Some {| ok := true; body := JConfig config |}) /\
     businessConfig (screen (fst (fetchData Store serve BACKEND_URL w))) =
       Some config).
Proof.
  split; [|split].
  - unfold headerSubtitle.
    destruct (businessConfig (screen w)) as [config|]; [|reflexivity].
    destruct (nonempty (BusinessConfig.business_name config)) eqn:E;
      [exact E | reflexivity].
  - intros config Hconfig Hname. unfold headerSubtitle. rewrite Hconfig.
    destruct (BusinessConfig.business_name config); [congruence|reflexivity].
  - unfold fetchData, finally, try_catch, bind, fetch, json_products,
      json_config, update, emit, ret, throw; simpl.
    repeat match goal with
      | |- context [serve ?s ?r] =>
          let E := fresh "E" in
          destruct (serve s r) as [? [[[] []]|]] eqn:E; simpl
      | |- context [(length ?l =? 0)%nat] => is_var l; destruct l; simpl
      end;
      try (left; reflexivity);
      right; do 2 eexists; (split; [eassumption | reflexivity]).
Qed.

(** X22. On the products screen too a fetch, or a pull to refresh, ends
    with the loading and refreshing indicators off whatever the backend
    answers, and touches neither the modal nor what is typed in it. *)
Theorem products_fetch_settles
  (Env : Type) (serve : Env -> request -> Env * option response)
  (BACKEND_URL : string) (w : World Env ProductsEditor.State) :
  let settled st' :=
    ProductsScreen.loading (ProductsEditor.catalog st') = false /\
    ProductsScreen.refreshing (ProductsEditor.catalog st') = false /\
    ProductsEditor.showModal st' = ProductsEditor.showModal (screen w) /\
    ProductsEditor.editingProduct st' =
      ProductsEditor.editingProduct (screen w) /\
    ProductsEditor.saving st' = ProductsEditor.saving (screen w) /\
    ProductsEditor.form st' = ProductsEditor.form (screen w) /\
    ProductsEditor.draft st' = ProductsEditor.draft (screen w) in
  settled (screen (fst (ProductsEditor.fetchProducts Env serve BACKEND_URL w)))
  /\
  settled (screen (fst (ProductsEditor.onRefresh Env serve BACKEND_URL w))).
Proof.
  intros settled. subst settled.
  split.
  - unfold ProductsEditor.fetchProducts, fetchProducts.
    run_handler serve; repeat split; reflexivity.
  - unfold ProductsEditor.onRefresh, ProductsEditor.fetchProducts,
      fetchProducts.
    run_handler serve; repeat split; reflexivity.
Qed.

(** ** The quote screen of [index.tsx] *)

(** X23. [addItemToQuote] of [index.tsx] guards the measurements in
    the same way: a width or height that is not a number, or not
    positive, raises an alert and changes nothing. With a product and
    positive measurements it appends an item whose area is width ×
    height and whose subtotal is area × unit price, and empties the
    selection and both fields. *)
Theorem no_addons_pricing (st : NoAddons.State) :
  let w := JS.parseFloat (NoAddons.width st) in
  let h := JS.parseFloat (NoAddons.height st) in
  (JS.isNaN w = true \/ JS.isNaN h = true \/
   JS.leb w JS.zero = true \/ JS.leb h JS.zero = true ->
   exists message,
     NoAddons.addItemToQuote st = ([Alert "Error" message], st)) /\
  (forall selected,
     NoAddons.selectedProduct st = Some selected ->
     JS.ltb JS.zero w = true -> JS.ltb JS.zero h = true ->
     exists item st',
       NoAddons.addItemToQuote st = ([], st') /\
       NoAddons.quoteItems st' = NoAddons.quoteItems st ++ [item] /\
       NoAddons.QuoteItem.square_meters item = JS.mul w h /\
       NoAddons.QuoteItem.subtotal item =
         JS.mul (JS.mul w h) (NoAddons.getPrice st selected) /\
       NoAddons.selectedProduct st' = None /\
       NoAddons.width st' = "" /\ NoAddons.height st' = "").
Proof.
  intros w h. split; [apply no_addons_invalid_measurement|].
  intros selected Hsel Hw Hh.
  destruct (no_addons_item st selected Hsel Hw Hh)
    as (item & st' & Hadd & Hitems & Hsqm & _ & Hsub).
  exists item, st'. repeat split; try assumption.
  all: revert Hadd; unfold NoAddons.addItemToQuote; rewrite Hsel;
    fold w h;
    destruct (positive_is_valid_measure _ Hw) as [-> ->];
    destruct (positive_is_valid_measure _ Hh) as [-> ->];
    simpl; intros Hadd; injection Hadd as <-; reflexivity.
Qed.

Lemma no_addons_pricing_witness :
  let st := plain (filled true "1.20" "1.50" "" "") in
  exists item st',
    NoAddons.addItemToQuote st = ([], st') /\
    NoAddons.quoteItems st' = [item] /\
    JS.toFixed (NoAddons.QuoteItem.subtotal item) 2 = "81.00".
Proof.
  intros st.
  destruct (proj2 (no_addons_pricing st) scenarioProduct eq_refl eq_refl
              eq_refl)
    as (item & st' & Hadd & Hitems & _ & Hsub & _).
  exists item, st'. split; [exact Hadd|]. split; [exact Hitems|].
  rewrite Hsub. vm_compute. reflexivity.
Defined.

(** X24. With both add-on fields empty or unparseable, the screen with
    add-ons prices an item as the screen of [index.tsx] does for the same
    product and measurements: same width, height, area and unit price,
    and a subtotal that is the same number. *)
Theorem revisions_agree (st : State) (selected : Product.t) :
  let w := JS.parseFloat (width (form st)) in
  let h := JS.parseFloat (height (form st)) in
  let item := newItem st selected w h in
  let item0 := NoAddons.newItem (plain st) selected w h in
  unparseable (fasciaPrice (form st)) ->
  unparseable (installationPrice (form st)) ->
  QuoteItem.width item = NoAddons.QuoteItem.width item0 /\
  QuoteItem.height item = NoAddons.QuoteItem.height item0 /\
  QuoteItem.square_meters item = NoAddons.QuoteItem.square_meters item0 /\
  QuoteItem.unit_price item = NoAddons.QuoteItem.unit_price item0 /\
  (JS.isNaN (NoAddons.QuoteItem.subtotal item0) = false ->
   JS.eqb (QuoteItem.subtotal item) (NoAddons.QuoteItem.subtotal item0)
     = true) /\
  (JS.isNaN (NoAddons.QuoteItem.subtotal item0) = true ->
   JS.isNaN (QuoteItem.subtotal item) = true).
Proof.
  intros w h item item0 Hf Hi. subst item item0.
  repeat split.
  - intros Hnan. apply (empty_addons_agree st selected w h Hf Hi Hnan).
  - simpl. unfold getFasciaPriceValue, getInstallationPriceValue.
    rewrite (unparseable_NaN _ Hf), (unparseable_NaN _ Hi), !or_else_NaN.
    unfold NoAddons.getPrice, getPrice. simpl.
    destruct (JS.mul (JS.mul w h) _); try discriminate. reflexivity.
Qed.

Lemma revisions_agree_witness :
  let st := filled true "1.20" "1.50" "" "abc" in
  JS.eqb
    (QuoteItem.subtotal
       (newItem st scenarioProduct (JS.parseFloat "1.20")
          (JS.parseFloat "1.50")))
    (NoAddons.QuoteItem.subtotal
       (NoAddons.newItem (plain st) scenarioProduct (JS.parseFloat "1.20")
          (JS.parseFloat "1.50"))) = true.
Proof.
  intros st.
  destruct (revisions_agree st scenarioProduct) as (_ & _ & _ & _ & H & _).
  - left; reflexivity.
  - right; reflexivity.
  - exact (H eq_refl).
Defined.
